(** * start_mirt_pipeline.py: the MIRT experiment pipeline driver

    A shallow embedding of [start_mirt_pipeline.py].  The script parses the
    command line into an argparse namespace, derives a run identifier from
    it, and drives four optional stages (generate, train, visualize, test)
    by calling collaborators from the [mirt] and [train_util] packages.

    Strings are Rocq strings (Python 2 [str], compared byte by byte),
    integers are [Z], the file system is a pair of finite maps, exceptions
    are a sum type, and every call that leaves the script is recorded in a
    log so that ordering properties can be stated. *)

From Stdlib Require Import Ascii.
From stdpp Require Import gmap strings list sorting pretty.

Local Open Scope string_scope.
Local Open Scope list_scope.

(** ** Python string and list primitives used by the script *)

Module Py.

(** [s.split(sep)] for a one-character separator: every occurrence of the
    separator ends a segment, so the result is never empty. *)
Fixpoint split (sep : ascii) (s : string) : list string :=
  match s with
  | "" => [""]
  | String c s' =>
      if decide (c = sep) then "" :: split sep s'
      else match split sep s' with
           | [] => [String c ""]
           | w :: ws => String c w :: ws
           end
  end.

(** [str(n)] for an [int]: the decimal rendering with a leading minus sign
    for negative values. *)
Definition str_int (n : Z) : string := pretty n.

(** Insertion of [x] in front of the first element whose key is not
    smaller: the step of a stable sort. *)
Fixpoint insert_by_key {A} (key : A → string) (x : A) (l : list A) : list A :=
  match l with
  | [] => [x]
  | y :: l' =>
      if String.leb (key x) (key y) then x :: y :: l'
      else y :: insert_by_key key x l'
  end.

(** [l.sort(key=key)]: ascending and stable, the keys compared as byte
    strings. *)
Fixpoint sort_by_key {A} (key : A → string) (l : list A) : list A :=
  match l with
  | [] => []
  | x :: l' => insert_by_key key x (sort_by_key key l')
  end.

(** [c in s] *)
Fixpoint has_char (c : ascii) (s : string) : bool :=
  match s with
  | "" => false
  | String c' s' => bool_decide (c' = c) || has_char c s'
  end.

(** The characters [str] of an integer is made of. *)
Definition int_chars : string := "-0123456789".

(** The order [sort] puts the elements in: by key, as byte strings. *)
Definition key_le {A} (key : A → string) (x y : A) : Prop :=
  String.le (key x) (key y).

End Py.

(** ** Exceptions *)

Inductive exn : Type :=
  | IndexError                      (* list index out of range *)
  | OSError (path : string)         (* os.listdir on a missing directory *)
  | IOError (path : string)         (* open() failed *)
  | ShutilError (src dst : string)  (* shutil.Error: same file *)
  | CollaboratorError (what : string).

Global Instance exn_eq_dec : EqDecision exn.
Proof. solve_decision. Defined.

(** ** The file system

    Paths are compared as strings: two different strings name two
    different files.  [fs_files] maps the path of a regular file to its
    bytes, [fs_dirs] maps the path of a directory, written with its
    trailing slash as the script writes it, to its entries in the order
    [os.listdir] reports them (an arbitrary order).  A write replaces the
    bytes of a file in one step. *)

Record fs : Type := Fs {
  fs_files : gmap string string;
  fs_dirs : gmap string (list string)
}.

(** Splits a path after its last slash into directory part and file name. *)
Fixpoint split_path (p : string) : string * string :=
  match p with
  | "" => ("", "")
  | String c p' =>
      let '(d, n) := split_path p' in
      if decide (c = "/"%char) then
        if decide (d = "") then ("/", n) else (String c d, n)
      else
        if decide (d = "") then ("", String c n) else (String c d, n)
  end.

(** ** The argparse namespace

    One field per [add_argument] of [get_command_line_arguments], plus the
    [datetime] attribute the function assigns after parsing (the empty
    string stands for "not assigned yet"). *)

Record Namespace : Type := MkNamespace {
  generate : bool;
  train : bool;
  visualize : bool;
  test : bool;
  data_file : string;
  abilities : Z;
  num_students : Z;
  num_problems : Z;
  time : bool;
  workers : Z;
  num_epochs : Z;
  model_directory : string;
  model : string;
  datetime : string
}.

(** One occurrence of an option on the command line, after argparse has
    matched the option string and converted the value with the option's
    [type].  The lexing of [sys.argv] and argparse's own usage errors
    belong to the library and are not modelled. *)
Inductive cli_arg : Type :=
  | OptGenerate | OptTrain | OptVisualize | OptTest | OptTime
  | OptDataFile (v : string)
  | OptAbilities (v : Z)
  | OptNumStudents (v : Z)
  | OptNumProblems (v : Z)
  | OptWorkers (v : Z)
  | OptNumEpochs (v : Z)
  | OptModelDirectory (v : string)
  | OptModel (v : string).

(** The argument of [model_training_util.mkdir_p]: the script passes a list
    at one call site and a string at the other. *)
Inductive paths_arg : Type :=
  | PathStr (p : string)
  | PathList (ps : list string).

(** A newline character, for the usage message. *)
Definition nl : string := String (ascii_of_nat 10) "".

Declare Scope pipeline_scope.

(** A call that leaves the script: it may change the file system and may
    raise. *)
Definition ext (A : Type) : Type := fs → fs * (exn + A).

(** ** Collaborators from [mirt] and [train_util]

    Their code is outside this file; each is an arbitrary state
    transformer that may raise.  They read the namespace they are given
    and do not assign to it.
    The points of a ROC curve are produced by [generate_predictions] and
    consumed by [visualize]; the driver only passes them on.  [script_dir]
    is [os.path.dirname(os.path.abspath(__file__))]. *)
Class Collaborators (roc_point : Type) : Type := {
  generate_responses_run : Namespace → ext unit;
  mkdir_p : paths_arg → ext unit;
  sep_into_train_and_test : Namespace → ext unit;
  run_programmatically : list string → ext unit;
  load_and_simulate_assessment :
    string → string → string → ext (list roc_point);
  show_roc : string → list roc_point → ext unit;
  show_exercises : string → ext unit;
  adaptive_pretest_main : string → ext unit;
  script_dir : string
}.

Section Pipeline.

Context `{C : Collaborators roc_point}.

(** Everything the script does to the outside world, in program order. *)
Inductive event : Type :=
  | Print (s : string)
  | PrintHelp
  | GenerateResponses (arguments : Namespace)
  | MkdirP (paths : paths_arg)
  | SepIntoTrainAndTest (arguments : Namespace)
  | RunProgrammatically (params : list string)
  | Listdir (path : string)
  | Copyfile (src dst : string)
  | LoadAndSimulateAssessment (model_file roc_file test_file : string)
  | ShowRoc (params : string) (curve : list roc_point)
  | ShowExercises (model_file : string)
  | AdaptivePretest (model_file : string).

(** ** The driver monad: file-system state, a log of events, exceptions *)

Record outcome (A : Type) : Type := Outcome {
  log : list event;
  final : fs;
  result : exn + A
}.
Global Arguments Outcome {A} _ _ _.
Global Arguments log {A} _.
Global Arguments final {A} _.
Global Arguments result {A} _.

Definition M (A : Type) : Type := fs → outcome A.

Definition ret {A} (a : A) : M A := λ s, Outcome [] s (inr a).

Definition bind {A B} (m : M A) (f : A → M B) : M B := λ s,
  let o := m s in
  match result o with
  | inl e => Outcome (log o) (final o) (inl e)
  | inr a => let o' := f a (final o) in
             Outcome (log o ++ log o')%list (final o') (result o')
  end.

Definition raise {A} (e : exn) : M A := λ s, Outcome [] s (inl e).

Definition emit (ev : event) : M unit := λ s, Outcome [ev] s (inr tt).

Definition call {A} (ev : event) (f : ext A) : M A := λ s,
  let '(s', r) := f s in Outcome [ev] s' r.

Definition when (b : bool) (m : M unit) : M unit :=
  if b then m else ret tt.

Notation "x ← m ; k" := (bind m (λ x, k))
  (at level 20, m at level 100, k at level 200, only parsing) : pipeline_scope.
Notation "m ;; k" := (bind m (λ _, k))
  (at level 100, k at level 200, only parsing, right associativity)
  : pipeline_scope.
Local Open Scope pipeline_scope.

(** ** Python library calls on the file system *)

(** [os.listdir(path)] *)
Definition os_listdir (path : string) : ext (list string) := λ s,
  match fs_dirs s !! path with
  | Some entries => (s, inr entries)
  | None => (s, inl (OSError path))
  end.

(** [shutil.copyfile(src, dst)]: refuses identical paths, opens [src] for
    reading and [dst] for writing (truncating it, creating its directory
    entry when it is new), then copies the bytes.  The model is one of
    canonical paths and whole writes: the library's same-file test
    ([os.path.samefile]) is equality of the path strings, the destination
    is a regular file or absent, and the copy does not stop midway. *)
Definition shutil_copyfile (src dst : string) : ext unit := λ s,
  if decide (src = dst) then (s, inl (ShutilError src dst))
  else match fs_files s !! src with
       | None => (s, inl (IOError src))
       | Some bytes =>
           let '(d, n) := split_path dst in
           if decide (n = "") then (s, inl (IOError dst))
           else match fs_dirs s !! d with
                | None => (s, inl (IOError dst))
                | Some entries =>
                    let entries' :=
                      if decide (n ∈ entries) then entries
                      else (entries ++ [n])%list in
                    (Fs (<[dst := bytes]> (fs_files s))
                        (<[d := entries']> (fs_dirs s)), inr tt)
                end
       end.

(** [npz_files[-1]] *)
Definition last_item {A} (l : list A) : M A :=
  match last l with
  | Some x => ret x
  | None => raise IndexError
  end.

(** ** The script *)

Definition default_namespace : Namespace := {|
  generate := false; train := false; visualize := false; test := false;
  data_file := script_dir +:+ "/sample_data/all.responses";
  abilities := 1;
  num_students := 500;
  num_problems := 10;
  time := false;
  workers := 1;
  num_epochs := 100;
  model_directory := script_dir +:+ "/sample_data/models/";
  model := script_dir +:+ "/sample_data/models/model.json";
  datetime := ""
|}.

(** The action of one option occurrence: [store_true] or [store]. *)
Definition store (a : Namespace) (o : cli_arg) : Namespace :=
  match o with
  | OptGenerate => MkNamespace true (train a) (visualize a) (test a)
      (data_file a) (abilities a) (num_students a) (num_problems a) (time a)
      (workers a) (num_epochs a) (model_directory a) (model a) (datetime a)
  | OptTrain => MkNamespace (generate a) true (visualize a) (test a)
      (data_file a) (abilities a) (num_students a) (num_problems a) (time a)
      (workers a) (num_epochs a) (model_directory a) (model a) (datetime a)
  | OptVisualize => MkNamespace (generate a) (train a) true (test a)
      (data_file a) (abilities a) (num_students a) (num_problems a) (time a)
      (workers a) (num_epochs a) (model_directory a) (model a) (datetime a)
  | OptTest => MkNamespace (generate a) (train a) (visualize a) true
      (data_file a) (abilities a) (num_students a) (num_problems a) (time a)
      (workers a) (num_epochs a) (model_directory a) (model a) (datetime a)
  | OptTime => MkNamespace (generate a) (train a) (visualize a) (test a)
      (data_file a) (abilities a) (num_students a) (num_problems a) true
      (workers a) (num_epochs a) (model_directory a) (model a) (datetime a)
  | OptDataFile v => MkNamespace (generate a) (train a) (visualize a) (test a)
      v (abilities a) (num_students a) (num_problems a) (time a)
      (workers a) (num_epochs a) (model_directory a) (model a) (datetime a)
  | OptAbilities v => MkNamespace (generate a) (train a) (visualize a) (test a)
      (data_file a) v (num_students a) (num_problems a) (time a)
      (workers a) (num_epochs a) (model_directory a) (model a) (datetime a)
  | OptNumStudents v => MkNamespace (generate a) (train a) (visualize a) (test a)
      (data_file a) (abilities a) v (num_problems a) (time a)
      (workers a) (num_epochs a) (model_directory a) (model a) (datetime a)
  | OptNumProblems v => MkNamespace (generate a) (train a) (visualize a) (test a)
      (data_file a) (abilities a) (num_students a) v (time a)
      (workers a) (num_epochs a) (model_directory a) (model a) (datetime a)
  | OptWorkers v => MkNamespace (generate a) (train a) (visualize a) (test a)
      (data_file a) (abilities a) (num_students a) (num_problems a) (time a)
      v (num_epochs a) (model_directory a) (model a) (datetime a)
  | OptNumEpochs v => MkNamespace (generate a) (train a) (visualize a) (test a)
      (data_file a) (abilities a) (num_students a) (num_problems a) (time a)
      (workers a) v (model_directory a) (model a) (datetime a)
  | OptModelDirectory v => MkNamespace (generate a) (train a) (visualize a)
      (test a) (data_file a) (abilities a) (num_students a) (num_problems a)
      (time a) (workers a) (num_epochs a) v (model a) (datetime a)
  | OptModel v => MkNamespace (generate a) (train a) (visualize a) (test a)
      (data_file a) (abilities a) (num_students a) (num_problems a) (time a)
      (workers a) (num_epochs a) (model_directory a) v (datetime a)
  end.

(** [parser.parse_args(args)]: the defaults, then every occurrence from
    left to right, a later one replacing an earlier one. *)
Definition parse_args (args : list cli_arg) : Namespace :=
  foldl store default_namespace args.

(** [arguments.datetime = ...] *)
Definition set_datetime (a : Namespace) (now : string) : Namespace :=
  MkNamespace (generate a) (train a) (visualize a) (test a)
      (data_file a) (abilities a) (num_students a) (num_problems a) (time a)
      (workers a) (num_epochs a) (model_directory a) (model a) now.

Definition usage_message : string :=
  nl +:+ "Must specify at least one task " +:+
  "(--generate, --train, --visualize, --test)." +:+ nl.

(** [get_command_line_arguments(arguments=None)].  [sys_argv] is
    [sys.argv[1:]], read when no (or an empty) list is passed; [now] is
    [str(datetime.datetime.now())]. *)
Definition get_command_line_arguments
    (arguments : option (list cli_arg)) (sys_argv : list cli_arg)
    (now : string) : M Namespace :=
  let arguments :=
    match arguments with
    | Some (o :: l) => parse_args (o :: l)
    | _ => parse_args sys_argv
    end in
  when (negb (generate arguments || train arguments
              || visualize arguments || test arguments))
    (emit (Print usage_message);;
     emit PrintHelp);;
  ret (set_datetime arguments now).

(** [gen_param_str(arguments)] *)
Definition gen_param_str (arguments : Namespace) : string :=
  let time_str := if time arguments then "time" else "no_time" in
  Py.str_int (abilities arguments) +:+ "_" +:+ time_str +:+ "_"
    +:+ datetime arguments.

(** The sort key of [get_latest_parameter_file_name]:
    [lambda fname: fname.split('_')[-1]]. *)
Definition sort_key (fname : string) : string :=
  List.last (Py.split "_" fname) "".

(** [get_latest_parameter_file_name(arguments)] *)
Definition get_latest_parameter_file_name (arguments : Namespace) : M string :=
  let params := gen_param_str arguments in
  let path := model_directory arguments +:+ params +:+ "/" in
  npz_files ← call (Listdir path) (os_listdir path);
  let npz_files := Py.sort_by_key sort_key npz_files in
  latest ← last_item npz_files;
  ret (path +:+ latest).

(** [save_model(arguments)] *)
Definition save_model (arguments : Namespace) : M unit :=
  latest_model ← get_latest_parameter_file_name arguments;
  emit (Print ("Saving model to " +:+ model arguments));;
  call (Copyfile latest_model (model arguments))
       (shutil_copyfile latest_model (model arguments)).

(** [make_necessary_directories(arguments)] *)
Definition make_necessary_directories (arguments : Namespace) : M unit :=
  let roc_dir := model_directory arguments +:+ "rocs/" in
  call (MkdirP (PathList [roc_dir])) (mkdir_p (PathList [roc_dir])).

(** The list [mirt_train_params] built by
    [generate_model_with_parameters]. *)
Definition mirt_train_params (arguments : Namespace) : list string :=
  let param_str := gen_param_str arguments in
  let out_dir_name := model_directory arguments +:+ param_str +:+ "/" in
  ([ "-a"; Py.str_int (abilities arguments);
     "-w"; Py.str_int (workers arguments);
     "-n"; Py.str_int (num_epochs arguments);
     "-f"; model_directory arguments +:+ "train.responses";
     "-o"; out_dir_name ]
   ++ (if time arguments then ["-z"] else []))%list.

(** [generate_model_with_parameters(arguments)] *)
Definition generate_model_with_parameters (arguments : Namespace) : M unit :=
  let param_str := gen_param_str arguments in
  let out_dir_name := model_directory arguments +:+ param_str +:+ "/" in
  call (MkdirP (PathStr out_dir_name)) (mkdir_p (PathStr out_dir_name));;
  let mirt_train_params := mirt_train_params arguments in
  call (RunProgrammatically mirt_train_params)
       (run_programmatically mirt_train_params).

(** [generate_roc_curve_from_model(arguments)] *)
Definition generate_roc_curve_from_model (arguments : Namespace)
    : M (list roc_point) :=
  let roc_dir := model_directory arguments +:+ "rocs/" in
  let roc_file := roc_dir +:+ datetime arguments in
  let test_file := model_directory arguments +:+ "test.responses" in
  call (LoadAndSimulateAssessment (model arguments) roc_file test_file)
       (load_and_simulate_assessment (model arguments) roc_file test_file).

(** The body of [if arguments.generate:]. *)
Definition generate_stage (arguments : Namespace) : M unit :=
  emit (Print "Generating Responses");;
  call (GenerateResponses arguments) (generate_responses_run arguments);;
  emit (Print ("Generated responses for "
               +:+ Py.str_int (num_students arguments) +:+ " students and "
               +:+ Py.str_int (num_problems arguments) +:+ " ")).

(** The body of [if arguments.train:]. *)
Definition train_stage (arguments : Namespace) : M unit :=
  make_necessary_directories arguments;;
  call (SepIntoTrainAndTest arguments) (sep_into_train_and_test arguments);;
  emit (Print "Training MIRT models");;
  generate_model_with_parameters arguments;;
  save_model arguments.

(** The body of [if arguments.visualize:]. *)
Definition visualize_stage (arguments : Namespace) (params : string) : M unit :=
  roc_curve ← generate_roc_curve_from_model arguments;
  emit (Print ("visualizing for " +:+ model arguments));;
  call (ShowRoc params roc_curve) (show_roc params roc_curve);;
  call (ShowExercises (model arguments)) (show_exercises (model arguments)).

(** The body of [if arguments.test:]. *)
Definition test_stage (arguments : Namespace) : M unit :=
  call (AdaptivePretest (model arguments))
       (adaptive_pretest_main (model arguments)).

(** [run_with_arguments(arguments)] *)
Definition run_with_arguments (arguments : Namespace) : M unit :=
  let params := gen_param_str arguments in
  when (generate arguments) (generate_stage arguments);;
  when (train arguments) (train_stage arguments);;
  when (visualize arguments) (visualize_stage arguments params);;
  when (test arguments) (test_stage arguments).

(** [main()] *)
Definition main (sys_argv : list cli_arg) (now : string) : M unit :=
  arguments ← get_command_line_arguments None sys_argv now;
  run_with_arguments arguments.

End Pipeline.

(** ** Module initialisation: the CPU affinity mask

    The [try] block run when the script is imported.  [import affinity]
    raises ImportError when the package is missing;
    [multiprocessing.cpu_count()] returns a count of at least one or raises
    NotImplementedError; [affinity.set_process_affinity_mask] may raise.
    NotImplementedError is passed over, ImportError is answered with a hint
    on standard error, anything else leaves the block. *)

Module Init.

Inductive init_exn : Type :=
  | ImportError
  | NotImplementedError
  | OtherError (what : string).

Inductive init_event : Type :=
  | SetProcessAffinityMask (pid mask : Z)
  | WriteStderr (s : string).

Definition affinity_hint : string :=
  "If you find that not all cores are being used, try installing affinity."
  +:+ nl.

(** The [except] clauses, after the events [done] already happened. *)
Definition handle (done : list init_event) (e : init_exn)
    : list init_event * option init_exn :=
  match e with
  | NotImplementedError => (done, None)
  | ImportError => (done ++ [WriteStderr affinity_hint], None)
  | OtherError _ => (done, Some e)
  end.

(** [import_affinity] is the outcome of [import affinity]: an exception or
    the package's [set_process_affinity_mask]. *)
Definition module_init
    (import_affinity : init_exn + (Z → Z → option init_exn))
    (cpu_count : init_exn + positive)
    : list init_event * option init_exn :=
  match import_affinity with
  | inl e => handle [] e
  | inr set_process_affinity_mask =>
      match cpu_count with
      | inl e => handle [] e
      | inr n =>
          let mask := (2 ^ Z.pos n - 1)%Z in
          match set_process_affinity_mask 0%Z mask with
          | None => ([SetProcessAffinityMask 0 mask], None)
          | Some e => handle [SetProcessAffinityMask 0 mask] e
          end
      end
  end.

End Init.

(** ** A concrete world, used to run the script on examples *)

Module Demo.

(** Writes [bytes] to the file [n] of directory [d]. *)
Definition write_file (d n bytes : string) (s : fs) : fs :=
  let entries := default [] (fs_dirs s !! d) in
  Fs (<[d +:+ n := bytes]> (fs_files s))
     (<[d := if decide (n ∈ entries) then entries else (entries ++ [n])%list]>
        (fs_dirs s)).

Definition make_dir (p : string) (s : fs) : fs :=
  match fs_dirs s !! p with
  | Some _ => s
  | None => Fs (fs_files s) (<[p := []]> (fs_dirs s))
  end.

Definition make_dirs (a : paths_arg) : ext unit := λ s,
  (foldr make_dir s (match a with PathStr p => [p] | PathList ps => ps end),
   inr tt).

(** A splitter that writes the two subsets next to the models. *)
Definition splitter (a : Namespace) : ext unit := λ s,
  (write_file (model_directory a) "test.responses" "rows-b"
     (write_file (model_directory a) "train.responses" "rows-a" s), inr tt).

(** A trainer that leaves two snapshots in the directory given after
    ["-o"]. *)
Definition trainer (params : list string) : ext unit := λ s,
  let d := default "" (params !! 9%nat) in
  (write_file d "snap_0002" "theta-2" (write_file d "snap_0001" "theta-1" s),
   inr tt).

(** A trainer that returns without writing anything. *)
Definition quiet_trainer (params : list string) : ext unit := λ s, (s, inr tt).

Definition skip {A} (a : A) : ext A := λ s, (s, inr a).

Definition fail {A} (what : string) : ext A := λ s,
  (s, inl (CollaboratorError what)).

Definition stubs : Collaborators (Z * Z) := {|
  generate_responses_run := λ _, skip tt;
  mkdir_p := make_dirs;
  sep_into_train_and_test := splitter;
  run_programmatically := trainer;
  load_and_simulate_assessment := λ _ _ _, skip [(0, 0); (1, 1)]%Z;
  show_roc := λ _ _, skip tt;
  show_exercises := λ _, skip tt;
  adaptive_pretest_main := λ _, skip tt;
  script_dir := "/opt/khan"
|}.

(** The same world with a trainer that produces no snapshot. *)
Definition silent_trainer : Collaborators (Z * Z) := {|
  generate_responses_run := λ _, skip tt;
  mkdir_p := make_dirs;
  sep_into_train_and_test := splitter;
  run_programmatically := quiet_trainer;
  load_and_simulate_assessment := λ _ _ _, skip [(0, 0); (1, 1)]%Z;
  show_roc := λ _ _, skip tt;
  show_exercises := λ _, skip tt;
  adaptive_pretest_main := λ _, skip tt;
  script_dir := "/opt/khan"
|}.

(** The same world with an evaluator that raises. *)
Definition failing_evaluator : Collaborators (Z * Z) := {|
  generate_responses_run := λ _, skip tt;
  mkdir_p := make_dirs;
  sep_into_train_and_test := splitter;
  run_programmatically := trainer;
  load_and_simulate_assessment := λ _ _ _, fail "load_and_simulate_assessment";
  show_roc := λ _ _, skip tt;
  show_exercises := λ _, skip tt;
  adaptive_pretest_main := λ _, skip tt;
  script_dir := "/opt/khan"
|}.

(** A disk holding the model root and an older model. *)
Definition disk : fs :=
  Fs {[ "m/model.json" := "old" ]} {[ "m/" := ["model.json"] ]}.

Definition now : string := "2014-07-01 10:20:30.000400".

Definition train_only : Namespace :=
  MkNamespace false true false false "m/all.responses" 3 500 10 true 4 100
    "m/" "m/model.json" now.

Definition visualize_and_test : Namespace :=
  MkNamespace false false true true "m/all.responses" 1 500 10 false 1 100
    "m/" "m/model.json" now.

(** The artifact directory of [train_only] holding the given entries. *)
Definition artifact_dir : string := "m/3_time_2014-07-01 10:20:30.000400/".

Definition disk_with (entries : list string) : fs :=
  Fs (list_to_map ((λ n, (artifact_dir +:+ n, "theta-" +:+ n)) <$> entries))
     {[ "m/" := [] ; artifact_dir := entries ]}.

End Demo.

(** * Properties *)

(** ** Python primitives *)

Module PyFacts.
Import Py.

Lemma string_app_assoc (s1 s2 s3 : string) :
  (s1 +:+ s2) +:+ s3 = s1 +:+ s2 +:+ s3.
Proof.
  unfold String.app. induction s1 as [|c s1 IH]; simpl; [done|]. by rewrite IH.
Qed.

Lemma split_nonempty sep s : split sep s ≠ [].
Proof. destruct s as [|c s]; simpl; [done|]. by repeat case_match. Qed.

Lemma split_no_sep sep s : Forall (λ w, has_char sep w = false) (split sep s).
Proof.
  induction s as [|c s IH]; simpl.
  - by constructor.
  - case_decide as Hc.
    + by constructor.
    + destruct (split sep s) as [|w ws]; inversion IH; subst;
        constructor; simpl; try done;
        rewrite bool_decide_eq_false_2; done.
Qed.

(** [sep.join(s.split(sep)) == s] *)
Lemma join_split sep s : String.concat (String sep "") (split sep s) = s.
Proof.
  induction s as [|c s IH]; simpl; [done|].
  case_decide as Hc.
  - subst c. pose proof (split_nonempty sep s) as Hne.
    destruct (split sep s) as [|w ws]; [done|].
    simpl in *. by rewrite IH.
  - pose proof (split_nonempty sep s) as Hne.
    destruct (split sep s) as [|w ws]; [done|].
    destruct ws as [|w' ws]; simpl in *; by rewrite <-IH.
Qed.

Lemma concat_snoc sep (l : list string) x :
  l ≠ [] →
  String.concat sep (l ++ [x]) = String.concat sep l +:+ sep +:+ x.
Proof.
  induction l as [|y l IH]; [done|]; intros _.
  destruct l as [|z l].
  - reflexivity.
  - change (String.concat sep ((y :: z :: l) ++ [x]))
      with (y +:+ sep +:+ String.concat sep ((z :: l) ++ [x])).
    rewrite IH by done.
    change (String.concat sep (y :: z :: l))
      with (y +:+ sep +:+ String.concat sep (z :: l)).
    by rewrite !string_app_assoc.
Qed.

Lemma list_last_default {A} (l : list A) d x :
  last l = Some x → List.last l d = x.
Proof.
  intros [l' ->]%last_Some. by rewrite List.last_last.
Qed.

(** The last segment of a split has no separator in it, and the string is
    that segment alone or ends with the separator followed by it. *)
Lemma last_segment sep s :
  let k := List.last (split sep s) "" in
  has_char sep k = false ∧ (s = k ∨ ∃ p, s = p +:+ String sep "" +:+ k).
Proof.
  pose proof (split_nonempty sep s) as Hne.
  pose proof (split_no_sep sep s) as Hall.
  pose proof (join_split sep s) as Hjoin.
  apply last_is_Some in Hne as [k Hk]. simpl.
  rewrite (list_last_default _ _ _ Hk).
  apply last_Some in Hk as [init Hinit]. rewrite Hinit in Hall, Hjoin.
  split.
  - apply Forall_app in Hall as [_ Hall]. by inversion Hall.
  - destruct init as [|w init]; [left; by rewrite <-Hjoin|].
    right. eexists. rewrite <-Hjoin. by apply concat_snoc.
Qed.

Lemma string_app_cons c (s t : string) : String c s +:+ t = String c (s +:+ t).
Proof. reflexivity. Qed.

Lemma string_app_nil_l (t : string) : "" +:+ t = t.
Proof. reflexivity. Qed.

Lemma has_char_app c (s t : string) :
  has_char c (s +:+ t) = has_char c s || has_char c t.
Proof.
  induction s as [|c' s IH]; [done|].
  rewrite string_app_cons. simpl. by rewrite IH, orb_assoc.
Qed.

(** A string is cut in one way only at the first occurrence of a
    character. *)
Lemma cut_at_first c (u1 u2 r1 r2 : string) :
  has_char c u1 = false → has_char c u2 = false →
  u1 +:+ String c r1 = u2 +:+ String c r2 → u1 = u2 ∧ r1 = r2.
Proof.
  revert u2. induction u1 as [|a u1 IH]; intros [|b u2]; simpl;
    rewrite ?string_app_cons, ?string_app_nil_l.
  - by intros _ _ [= ->].
  - intros _ [Hb _]%orb_false_elim [= <- _].
    by rewrite bool_decide_eq_true_2 in Hb.
  - intros [Ha _]%orb_false_elim _ [= -> _].
    by rewrite bool_decide_eq_true_2 in Ha.
  - intros [_ H1]%orb_false_elim [_ H2]%orb_false_elim [= -> Heq].
    destruct (IH _ H1 H2 Heq) as [-> ->]. done.
Qed.

Lemma pretty_N_char_digit x : has_char (pretty_N_char x) int_chars = true.
Proof. unfold pretty_N_char. by repeat case_match. Qed.

Lemma not_int_char c d :
  has_char c int_chars = false → has_char d int_chars = true →
  bool_decide (d = c) = false.
Proof. intros Hc Hd. apply bool_decide_eq_false_2. intros ->. congruence. Qed.

Lemma pretty_N_go_chars c x s :
  has_char c int_chars = false → has_char c s = false →
  has_char c (pretty_N_go x s) = false.
Proof.
  intros Hc. revert s. induction (N.lt_wf_0 x) as [x _ IH]; intros s Hs.
  assert (x = 0 ∨ 0 < x)%N as [->|?] by lia.
  - by rewrite pretty_N_go_0.
  - rewrite pretty_N_go_step by done. apply IH.
    { by apply N.div_lt. }
    simpl. rewrite Hs, orb_false_r.
    apply not_int_char; [done|apply pretty_N_char_digit].
Qed.

Lemma str_int_chars c n :
  has_char c int_chars = false → has_char c (str_int n) = false.
Proof.
  intros Hc. unfold str_int, pretty, pretty_Z.
  assert (∀ p : positive, has_char c (pretty p) = false) as Hpos.
  { intros p. unfold pretty, pretty_positive, pretty, pretty_N.
    case_decide; [done|]. by apply pretty_N_go_chars. }
  destruct n as [|p|p]; [|apply Hpos|].
  - simpl. rewrite orb_false_r. by apply not_int_char.
  - rewrite has_char_app, Hpos. simpl. rewrite !orb_false_r.
    by apply not_int_char.
Qed.

Lemma str_int_inj n1 n2 : str_int n1 = str_int n2 → n1 = n2.
Proof. apply pretty_Z_inj. Qed.

Section Sorting.
Context {A : Type} (key : A → string).

Global Instance key_le_preorder : PreOrder (key_le key).
Proof.
  split.
  - intros x. unfold key_le. reflexivity.
  - intros x y z. unfold key_le. apply transitivity.
Qed.

Global Instance key_le_total : Total (key_le key).
Proof. intros x y. unfold key_le. apply (total String.le). Qed.

Lemma leb_key_le x y : String.leb (key x) (key y) = true ↔ key_le key x y.
Proof. unfold key_le, String.le. by rewrite Is_true_true. Qed.

Lemma leb_key_gt x y :
  String.leb (key x) (key y) = false → key_le key y x ∧ ¬ key_le key x y.
Proof.
  intros Hf. split.
  - destruct (total (key_le key) x y) as [H|H]; [|done].
    apply leb_key_le in H. congruence.
  - intros H%leb_key_le. congruence.
Qed.

Lemma insert_by_key_perm x l : insert_by_key key x l ≡ₚ x :: l.
Proof.
  induction l as [|y l IH]; simpl; [done|].
  case_match; [done|]. rewrite IH. apply Permutation_swap.
Qed.

Lemma sort_by_key_perm l : sort_by_key key l ≡ₚ l.
Proof.
  induction l as [|x l IH]; simpl; [done|].
  by rewrite insert_by_key_perm, IH.
Qed.

Lemma insert_by_key_sorted x l :
  StronglySorted (key_le key) l →
  StronglySorted (key_le key) (insert_by_key key x l).
Proof.
  induction 1 as [|y l Hl IH Hy]; simpl.
  - repeat constructor.
  - destruct (String.leb (key x) (key y)) eqn:Hxy.
    + apply leb_key_le in Hxy. constructor; [by constructor|].
      constructor; [done|].
      eapply Forall_impl; [exact Hy|]. intros z Hz. by etrans.
    + apply leb_key_gt in Hxy as [Hyx _]. constructor; [done|].
      rewrite insert_by_key_perm. by constructor.
Qed.

Lemma sort_by_key_sorted l : StronglySorted (key_le key) (sort_by_key key l).
Proof.
  induction l as [|x l IH]; simpl; [constructor|].
  by apply insert_by_key_sorted.
Qed.

(** The last element of a sorted list is a maximum. *)
Lemma sorted_last_max l m :
  StronglySorted (key_le key) l → last l = Some m →
  Forall (λ y, key_le key y m) l.
Proof.
  intros Hl [l' ->]%last_Some.
  apply StronglySorted_app in Hl as (Hlt & _ & _).
  apply Forall_app. split.
  - apply Forall_forall. intros y Hy. apply Hlt; [done|]. by left.
  - by repeat constructor.
Qed.

Lemma insert_by_key_last x l :
  StronglySorted (key_le key) l →
  last (insert_by_key key x l) =
    match last l with
    | None => Some x
    | Some m => if String.leb (key x) (key m) then Some m else Some x
    end.
Proof.
  induction 1 as [|y l Hl IH Hy]; [done|].
  cbn [insert_by_key].
  destruct (String.leb (key x) (key y)) eqn:Hxy.
  - rewrite last_cons_cons.
    destruct (last (y :: l)) as [m|] eqn:Hm; [|by apply last_None in Hm].
    assert (key_le key y m) as Hym.
    { pose proof (sorted_last_max (y :: l) m) as Hmax.
      rewrite Forall_cons in Hmax. apply Hmax; [by constructor|done]. }
    apply leb_key_le in Hxy.
    assert (key_le key x m) as ->%leb_key_le by (by etrans). done.
  - destruct l as [|z l].
    + simpl. by rewrite Hxy.
    + rewrite (last_cons_cons y z l), <-IH.
      destruct (insert_by_key key x (z :: l)) as [|u us] eqn:Hins.
      { apply (f_equal length) in Hins.
        pose proof (Permutation_length (insert_by_key_perm x (z :: l))) as Hp.
        rewrite Hins in Hp. done. }
      by rewrite last_cons_cons.
Qed.

(** What [l.sort(key=key); l[-1]] selects: an element of largest key, and
    among equal keys the one listed last. *)
Lemma sort_last_selects l m :
  last (sort_by_key key l) = Some m →
  ∃ pre post, l = pre ++ m :: post
    ∧ Forall (λ y, key_le key y m) pre
    ∧ Forall (λ y, ¬ key_le key m y) post.
Proof.
  revert m. induction l as [|x l IH]; intros m; simpl; [done|].
  rewrite insert_by_key_last by apply sort_by_key_sorted.
  destruct (last (sort_by_key key l)) as [m'|] eqn:Hm'.
  - destruct (String.leb (key x) (key m')) eqn:Hxm; intros [= <-].
    + destruct (IH _ eq_refl) as (pre & post & -> & Hpre & Hpost).
      exists (x :: pre), post. split_and!; [done| |done].
      constructor; [by apply leb_key_le|done].
    + exists [], l. split_and!; [done|constructor|].
      apply leb_key_gt in Hxm as [_ Hxm].
      pose proof (sorted_last_max _ _ (sort_by_key_sorted l) Hm') as Hmax.
      rewrite sort_by_key_perm in Hmax.
      eapply Forall_impl; [exact Hmax|]. intros y Hy Hxy. apply Hxm. by etrans.
  - intros [= <-]. apply last_None in Hm'.
    pose proof (Permutation_length (sort_by_key_perm l)) as Hp.
    rewrite Hm' in Hp. destruct l; [|done].
    exists [], []. by repeat constructor.
Qed.

Lemma sort_by_key_nonempty l : l ≠ [] → is_Some (last (sort_by_key key l)).
Proof.
  intros Hl. apply last_is_Some. intros Hs.
  pose proof (Permutation_length (sort_by_key_perm l)) as Hp.
  rewrite Hs in Hp. by destruct l.
Qed.

End Sorting.

End PyFacts.

(** ** The run identifier *)

Section Namer.

Lemma time_tag_cut (b1 b2 : bool) (d1 d2 : string) :
  (if b1 then "time" else "no_time") +:+ "_" +:+ d1
  = (if b2 then "time" else "no_time") +:+ "_" +:+ d2 →
  b1 = b2 ∧ d1 = d2.
Proof.
  destruct b1, b2; intros Heq; try (by inversion Heq).
Qed.

(** C6: the identifier is the text "{abilities}_{time|no_time}_{timestamp}";
    it depends on nothing but the three components, and two namespaces
    have the same identifier only when all three components agree, so
    distinct timestamps give distinct identifiers. *)
Theorem gen_param_str_unique_per_triple (a1 a2 : Namespace) :
  gen_param_str a1
  = Py.str_int (abilities a1) +:+ "_"
    +:+ (if time a1 then "time" else "no_time") +:+ "_" +:+ datetime a1
  ∧ (abilities a1 = abilities a2 → time a1 = time a2 →
     datetime a1 = datetime a2 → gen_param_str a1 = gen_param_str a2)
  ∧ (gen_param_str a1 = gen_param_str a2 →
     abilities a1 = abilities a2 ∧ time a1 = time a2
     ∧ datetime a1 = datetime a2)
  ∧ (datetime a1 ≠ datetime a2 → gen_param_str a1 ≠ gen_param_str a2).
Proof.
  assert (gen_param_str a1 = gen_param_str a2 →
          abilities a1 = abilities a2 ∧ time a1 = time a2
          ∧ datetime a1 = datetime a2) as Hinj.
  { unfold gen_param_str. intros Heq.
    apply PyFacts.cut_at_first in Heq as [Ha Hrest];
      [|by apply PyFacts.str_int_chars..].
    apply PyFacts.str_int_inj in Ha.
    apply time_tag_cut in Hrest as [??]. done. }
  split_and!; [done| |done|].
  - unfold gen_param_str. by intros -> -> ->.
  - intros Hne Heq. by destruct (Hinj Heq) as (_ & _ & ?).
Qed.

End Namer.

(** ** The artifact resolver *)

Section Properties.
Context `{C : Collaborators roc_point}.

(** Some functions of the script call no collaborator; their events are
    those of the section's world. *)
Local Abbreviation get_latest_parameter_file_name :=
  (get_latest_parameter_file_name (roc_point := roc_point)).
Local Abbreviation save_model := (save_model (roc_point := roc_point)).

(** [get_latest_parameter_file_name] lists one directory and either raises
    or returns a path in it, without touching the file system. *)
Lemma get_latest_parameter_file_name_unfold arguments s :
  let path := model_directory arguments +:+ gen_param_str arguments +:+ "/" in
  get_latest_parameter_file_name arguments s =
    match fs_dirs s !! path with
    | None => Outcome [Listdir path] s (inl (OSError path))
    | Some entries =>
        match last (Py.sort_by_key sort_key entries) with
        | Some latest => Outcome [Listdir path] s (inr (path +:+ latest))
        | None => Outcome [Listdir path] s (inl IndexError)
        end
    end.
Proof.
  simpl. unfold get_latest_parameter_file_name, bind, call, os_listdir, last_item.
  destruct (fs_dirs s !! _) as [entries|]; simpl; [|done].
  by destruct (last (Py.sort_by_key sort_key entries)).
Qed.

Lemma sort_key_spec f :
  Py.has_char "_" (sort_key f) = false
  ∧ (f = sort_key f ∨ ∃ p, f = p +:+ "_" +:+ sort_key f).
Proof. apply (PyFacts.last_segment "_" f). Qed.

(** C1: on a non-empty listing the resolver sorts the names ascending by
    the segment after the last underscore (a stable sort on byte strings)
    and returns the directory path followed by the last name of the sorted
    list: a name of greatest key and, among names of equal key, the one
    listed last.  Whatever the order of the listing, {a_1, a_2, a_10}
    selects a_2 and {a_01, a_02, a_10} selects a_10. *)
Theorem resolve_selects_last_of_sorted arguments s entries :
  let path := model_directory arguments +:+ gen_param_str arguments +:+ "/" in
  fs_dirs s !! path = Some entries → entries ≠ [] →
  ∃ latest,
    result (get_latest_parameter_file_name arguments s) = inr (path +:+ latest)
    ∧ last (Py.sort_by_key sort_key entries) = Some latest
    ∧ Py.sort_by_key sort_key entries ≡ₚ entries
    ∧ StronglySorted (Py.key_le sort_key) (Py.sort_by_key sort_key entries)
    ∧ (∀ f, f ∈ entries → String.le (sort_key f) (sort_key latest))
    ∧ (∃ pre post, entries = pre ++ latest :: post
         ∧ Forall (λ f, String.le (sort_key f) (sort_key latest)) pre
         ∧ Forall (λ f, ¬ String.le (sort_key latest) (sort_key f)) post)
    ∧ (∀ f, Py.has_char "_" (sort_key f) = false
            ∧ (f = sort_key f ∨ ∃ p, f = p +:+ "_" +:+ sort_key f))
    ∧ (entries ≡ₚ ["a_1"; "a_2"; "a_10"] → latest = "a_2")
    ∧ (entries ≡ₚ ["a_01"; "a_02"; "a_10"] → latest = "a_10").
Proof.
  intros path Hdir Hne.
  destruct (PyFacts.sort_by_key_nonempty sort_key entries Hne) as [latest Hlast].
  pose proof (PyFacts.sort_by_key_perm sort_key entries) as Hperm.
  pose proof (PyFacts.sort_by_key_sorted sort_key entries) as Hsorted.
  assert (∀ f, f ∈ entries → String.le (sort_key f) (sort_key latest)) as Hmax.
  { intros f Hf.
    pose proof (PyFacts.sorted_last_max sort_key _ _ Hsorted Hlast) as Hall.
    rewrite Forall_forall in Hall. apply Hall. by rewrite Hperm. }
  assert (latest ∈ entries) as Hin.
  { rewrite <-Hperm. by apply last_Some_elem_of. }
  exists latest. split_and!; try done.
  - pose proof (get_latest_parameter_file_name_unfold arguments s) as Hun.
    simpl in Hun. fold path in Hun. by rewrite Hun, Hdir, Hlast.
  - apply (PyFacts.sort_last_selects sort_key entries latest Hlast).
  - apply sort_key_spec.
  - intros Hp.
    assert ("a_2" ∈ entries) as Hge%Hmax by (rewrite Hp; set_solver).
    rewrite Hp in Hin. set_unfold in Hin. destruct Hin as [->|[->|[->|[]]]]; [|done|];
      by vm_compute in Hge.
  - intros Hp.
    assert ("a_10" ∈ entries) as Hge%Hmax by (rewrite Hp; set_solver).
    rewrite Hp in Hin. set_unfold in Hin. destruct Hin as [->|[->|[->|[]]]]; [| |done];
      by vm_compute in Hge.
Qed.

(** C4: a non-empty listing always yields a path to one of its entries;
    an empty listing makes [npz_files[-1]] raise IndexError, the failure the
    specification calls NoArtifactsProduced, so no path is returned and
    [save_model] copies nothing. *)
Theorem resolve_fails_exactly_on_empty_listing arguments s entries :
  let path := model_directory arguments +:+ gen_param_str arguments +:+ "/" in
  fs_dirs s !! path = Some entries →
  (entries ≠ [] →
     ∃ latest, latest ∈ entries
       ∧ result (get_latest_parameter_file_name arguments s)
         = inr (path +:+ latest))
  ∧ (entries = [] →
       result (get_latest_parameter_file_name arguments s) = inl IndexError
       ∧ result (save_model arguments s) = inl IndexError
       ∧ final (save_model arguments s) = s
       ∧ log (save_model arguments s) = [Listdir path]).
Proof.
  intros path Hdir.
  pose proof (get_latest_parameter_file_name_unfold arguments s) as Hun.
  simpl in Hun. fold path in Hun. rewrite Hdir in Hun.
  split.
  - intros Hne.
    destruct (PyFacts.sort_by_key_nonempty sort_key entries Hne)
      as [latest Hlast].
    exists latest. rewrite Hun, Hlast. split; [|done].
    rewrite <-(PyFacts.sort_by_key_perm sort_key entries).
    by apply last_Some_elem_of.
  - intros ->. simpl in Hun. unfold save_model, bind. by rewrite Hun.
Qed.

(** ** Parsing the command line *)

Lemma store_keeps_abilities a post :
  (∀ v, OptAbilities v ∉ post) →
  abilities (foldl store a post) = abilities a.
Proof.
  revert a. induction post as [|o post IH]; intros a Hno; [done|].
  simpl. rewrite IH by (intros v ?; apply (Hno v); by right).
  destruct o; try done. destruct (Hno v). by left.
Qed.

Lemma store_keeps_workers a post :
  (∀ v, OptWorkers v ∉ post) →
  workers (foldl store a post) = workers a.
Proof.
  revert a. induction post as [|o post IH]; intros a Hno; [done|].
  simpl. rewrite IH by (intros v ?; apply (Hno v); by right).
  destruct o; try done. destruct (Hno v). by left.
Qed.

Lemma store_keeps_num_epochs a post :
  (∀ v, OptNumEpochs v ∉ post) →
  num_epochs (foldl store a post) = num_epochs a.
Proof.
  revert a. induction post as [|o post IH]; intros a Hno; [done|].
  simpl. rewrite IH by (intros v ?; apply (Hno v); by right).
  destruct o; try done. destruct (Hno v). by left.
Qed.

Lemma store_keeps_stages a opts :
  OptGenerate ∉ opts → OptTrain ∉ opts →
  OptVisualize ∉ opts → OptTest ∉ opts →
  generate (foldl store a opts) = generate a
  ∧ train (foldl store a opts) = train a
  ∧ visualize (foldl store a opts) = visualize a
  ∧ test (foldl store a opts) = test a.
Proof.
  revert a. induction opts as [|o opts IH]; intros a Hg Ht Hv Hte; [done|].
  apply not_elem_of_cons in Hg as [??], Ht as [??], Hv as [??], Hte as [??].
  simpl. destruct (IH (store a o)) as (-> & -> & -> & ->); try done.
  by destruct o.
Qed.

(** [get_command_line_arguments] never raises and leaves the disk alone;
    it prints the usage text exactly when no stage was requested. *)
Lemma get_command_line_arguments_unfold arguments sys_argv now s :
  let ns := parse_args (match arguments with
                        | Some (o :: l) => o :: l
                        | _ => sys_argv
                        end) in
  get_command_line_arguments arguments sys_argv now s =
    Outcome
      (if generate ns || train ns || visualize ns || test ns then []
       else [Print usage_message; PrintHelp])
      s (inr (set_datetime ns now)).
Proof.
  simpl. unfold get_command_line_arguments.
  destruct arguments as [[|o l]|];
    match goal with
    | |- context [parse_args ?x] => generalize (parse_args x)
    end; intros ns; unfold bind, when, emit, ret; simpl;
    by destruct (generate ns || train ns || visualize ns || test ns).
Qed.

(** C2 (amended): construction performs no range check.  It always
    succeeds, and the ability, worker and epoch counts it stores are the
    last values given for them, whatever their sign; ability count 3 with
    worker count 4 is stored as given. *)
Theorem construction_stores_counts_unchecked arguments sys_argv now s :
  let opts := match arguments with
              | Some (o :: l) => o :: l
              | _ => sys_argv
              end in
  let o := get_command_line_arguments arguments sys_argv now s in
  (∃ ns, result o = inr ns
     ∧ abilities ns = abilities (parse_args opts)
     ∧ workers ns = workers (parse_args opts)
     ∧ num_epochs ns = num_epochs (parse_args opts))
  ∧ (∀ pre v post, opts = pre ++ OptAbilities v :: post →
       (∀ v', OptAbilities v' ∉ post) → abilities (parse_args opts) = v)
  ∧ (∀ pre v post, opts = pre ++ OptWorkers v :: post →
       (∀ v', OptWorkers v' ∉ post) → workers (parse_args opts) = v)
  ∧ (∀ pre v post, opts = pre ++ OptNumEpochs v :: post →
       (∀ v', OptNumEpochs v' ∉ post) → num_epochs (parse_args opts) = v)
  ∧ (opts = [OptAbilities 3; OptWorkers 4] →
       ∃ ns, result o = inr ns ∧ abilities ns = 3%Z ∧ workers ns = 4%Z).
Proof.
  intros opts o.
  pose proof (get_command_line_arguments_unfold arguments sys_argv now s)
    as Hun. simpl in Hun. fold opts in Hun. fold o in Hun.
  split_and!.
  - eexists. rewrite Hun. simpl. done.
  - intros pre v post -> Hno. unfold parse_args.
    rewrite foldl_app. simpl. by rewrite store_keeps_abilities.
  - intros pre v post -> Hno. unfold parse_args.
    rewrite foldl_app. simpl. by rewrite store_keeps_workers.
  - intros pre v post -> Hno. unfold parse_args.
    rewrite foldl_app. simpl. by rewrite store_keeps_num_epochs.
  - intros Hopts. eexists. rewrite Hun, Hopts. simpl. done.
Qed.

(** C5: when no stage flag is on the command line, [main] prints the
    usage message and the help text and does nothing else: no collaborator
    is called, no directory is created and no file is written, the file
    system is left as it was; [run_with_arguments] itself does nothing at
    all on the parsed namespace. *)
Theorem no_stage_prints_usage_only sys_argv now s :
  OptGenerate ∉ sys_argv → OptTrain ∉ sys_argv →
  OptVisualize ∉ sys_argv → OptTest ∉ sys_argv →
  let o := main sys_argv now s in
  let arguments := set_datetime (parse_args sys_argv) now in
  log o = [Print usage_message; PrintHelp] ∧ final o = s ∧ result o = inr tt
  ∧ run_with_arguments arguments s = Outcome [] s (inr tt).
Proof.
  intros Hg Ht Hv Hte.
  destruct (store_keeps_stages default_namespace sys_argv Hg Ht Hv Hte)
    as (Hg' & Ht' & Hv' & Hte').
  cbn zeta.
  assert (run_with_arguments (set_datetime (parse_args sys_argv) now) s
          = Outcome [] s (inr tt)) as Hrun.
  { unfold run_with_arguments, bind, when, parse_args. simpl.
    by rewrite Hg', Ht', Hv', Hte'. }
  split_and!; [..|exact Hrun]; clear Hrun.
  all: unfold main, bind.
  all: pose proof (get_command_line_arguments_unfold None sys_argv now s)
    as Hun; simpl in Hun; rewrite Hun; clear Hun; unfold parse_args.
  all: rewrite Hg', Ht', Hv', Hte'; simpl.
  all: unfold run_with_arguments, bind, when; simpl.
  all: by rewrite Hg', Ht', Hv', Hte'.
Qed.

(** ** The train stage *)

(** A successful [shutil.copyfile]: the two paths differ, the source had
    bytes, the destination has them afterwards, no other file changes and
    no directory loses an entry. *)
Lemma shutil_copyfile_ok src dst s s' :
  shutil_copyfile src dst s = (s', inr tt) →
  src ≠ dst
  ∧ ∃ bytes, fs_files s !! src = Some bytes
      ∧ fs_files s' = <[dst := bytes]> (fs_files s)
      ∧ ∀ d entries, fs_dirs s !! d = Some entries →
          ∃ entries', fs_dirs s' !! d = Some entries' ∧ entries ⊆ entries'.
Proof.
  unfold shutil_copyfile. case_decide as Hne; [done|].
  destruct (fs_files s !! src) as [bytes|] eqn:Hsrc; [|done].
  destruct (split_path dst) as [d0 n]. case_decide; [done|].
  destruct (fs_dirs s !! d0) as [entries0|] eqn:Hd0; [|done].
  intros [= <-]. split; [done|]. exists bytes. split_and!; [done..|].
  intros d entries Hd. simpl. destruct (decide (d0 = d)) as [->|Hdd].
  - rewrite lookup_insert_eq. eexists; split; [done|].
    rewrite Hd0 in Hd. injection Hd as ->. case_decide; set_solver.
  - rewrite lookup_insert_ne by done. by exists entries.
Qed.

(** A failed [shutil.copyfile] changes nothing. *)
Lemma shutil_copyfile_failed src dst s s' e :
  shutil_copyfile src dst s = (s', inl e) → s' = s.
Proof.
  unfold shutil_copyfile. repeat case_match; by intros [= <-].
Qed.

Lemma save_model_unfold arguments s :
  let path := model_directory arguments +:+ gen_param_str arguments +:+ "/" in
  save_model arguments s =
    match fs_dirs s !! path with
    | None => Outcome [Listdir path] s (inl (OSError path))
    | Some entries =>
        match last (Py.sort_by_key sort_key entries) with
        | None => Outcome [Listdir path] s (inl IndexError)
        | Some latest =>
            let '(s', r) :=
              shutil_copyfile (path +:+ latest) (model arguments) s in
            Outcome [Listdir path;
                     Print ("Saving model to " +:+ model arguments);
                     Copyfile (path +:+ latest) (model arguments)] s' r
        end
    end.
Proof.
  intros path. unfold save_model, bind.
  pose proof (get_latest_parameter_file_name_unfold arguments s) as Hun.
  simpl in Hun. fold path in Hun. rewrite Hun.
  destruct (fs_dirs s !! path) as [entries|]; [|done].
  destruct (last (Py.sort_by_key sort_key entries)) as [latest|]; [|done].
  cbn [result log final emit]. unfold call.
  by destruct (shutil_copyfile (path +:+ latest) (model arguments) s).
Qed.

Lemma generate_model_with_parameters_unfold arguments s :
  let dir := model_directory arguments +:+ gen_param_str arguments +:+ "/" in
  generate_model_with_parameters arguments s =
    match mkdir_p (PathStr dir) s with
    | (s1, inl e) => Outcome [MkdirP (PathStr dir)] s1 (inl e)
    | (s1, inr _) =>
        let '(s2, r) := run_programmatically (mirt_train_params arguments) s1 in
        Outcome [MkdirP (PathStr dir);
                 RunProgrammatically (mirt_train_params arguments)] s2 r
    end.
Proof.
  intros dir. unfold generate_model_with_parameters, bind, call.
  fold dir. destruct (mkdir_p (PathStr dir) s) as [s1 [e|[]]]; [done|].
  cbn [result log final].
  by destruct (run_programmatically (mirt_train_params arguments) s1).
Qed.

(** C8: when [save_model] succeeds, the selected snapshot is still in the
    artifact directory with the bytes it had, the file at the model path
    holds the same bytes, every entry of the artifact directory is still
    listed, and no file other than the model path has changed. *)
Theorem save_model_copies_snapshot arguments s :
  let path := model_directory arguments +:+ gen_param_str arguments +:+ "/" in
  let o := save_model arguments s in
  result o = inr tt →
  ∃ latest bytes entries entries',
    fs_dirs s !! path = Some entries
    ∧ result (get_latest_parameter_file_name arguments s)
      = inr (path +:+ latest)
    ∧ latest ∈ entries
    ∧ fs_files s !! (path +:+ latest) = Some bytes
    ∧ fs_files (final o) !! (path +:+ latest) = Some bytes
    ∧ fs_files (final o) !! model arguments = Some bytes
    ∧ fs_dirs (final o) !! path = Some entries'
    ∧ entries ⊆ entries'
    ∧ (∀ p, p ≠ model arguments →
         fs_files (final o) !! p = fs_files s !! p).
Proof.
  intros path o. subst o.
  pose proof (get_latest_parameter_file_name_unfold arguments s) as Hget.
  pose proof (save_model_unfold arguments s) as Hun.
  simpl in Hun, Hget. fold path in Hun, Hget. rewrite Hun, Hget. clear Hun Hget.
  destruct (fs_dirs s !! path) as [entries|] eqn:Hdir; [|done].
  destruct (last (Py.sort_by_key sort_key entries)) as [latest|] eqn:Hlast;
    [|done].
  destruct (shutil_copyfile _ _ s) as [s' [e|[]]] eqn:Hcp; [done|].
  intros _. cbn [final result].
  apply shutil_copyfile_ok in Hcp as (Hne & bytes & Hsrc & Hfiles & Hdirs).
  destruct (Hdirs _ _ Hdir) as (entries' & Hdir' & Hsub).
  exists latest, bytes, entries, entries'. split_and!; try done.
  - rewrite <-(PyFacts.sort_by_key_perm sort_key entries).
    by apply last_Some_elem_of.
  - rewrite Hfiles. by rewrite lookup_insert_ne.
  - rewrite Hfiles. by rewrite lookup_insert_eq.
  - intros p Hp. rewrite Hfiles. by rewrite lookup_insert_ne.
Qed.

Lemma str_int_not_switch n : Py.str_int n ≠ "-z".
Proof.
  intros Heq.
  pose proof (PyFacts.str_int_chars "z" n eq_refl) as Hz.
  rewrite Heq in Hz. done.
Qed.

Lemma ends_with_slash_not_switch (p : string) : p +:+ "/" ≠ "-z".
Proof.
  by destruct p as [|a [|b [|c p]]].
Qed.

Lemma train_responses_not_switch (p : string) : p +:+ "train.responses" ≠ "-z".
Proof.
  by destruct p as [|a [|b [|c p]]].
Qed.

(** C9 (amended): the trainer is called, right after the artifact
    directory has been created, with the list -a abilities, -w workers, -n
    epochs, -f model_directory + train.responses, -o artifact directory,
    followed by -z exactly when the time flag is set; the worker count is
    rendered as it is.  The script joins paths by plain concatenation: for
    a model directory written with its trailing slash, d/, the training
    subset is d/train.responses, and no separator is added otherwise. *)
Theorem trainer_receives_run_parameters arguments s :
  let dir := model_directory arguments +:+ gen_param_str arguments +:+ "/" in
  let params :=
    [ "-a"; Py.str_int (abilities arguments);
      "-w"; Py.str_int (workers arguments);
      "-n"; Py.str_int (num_epochs arguments);
      "-f"; model_directory arguments +:+ "train.responses";
      "-o"; dir ] ++ (if time arguments then ["-z"] else []) in
  let o := generate_model_with_parameters arguments s in
  (log o = [MkdirP (PathStr dir)] ∧ (∃ e, result o = inl e)
   ∨ log o = [MkdirP (PathStr dir); RunProgrammatically params])
  ∧ (∀ s1, mkdir_p (PathStr dir) s = (s1, inr tt) →
       log o = [MkdirP (PathStr dir); RunProgrammatically params])
  ∧ (∀ ps, RunProgrammatically ps ∈ log o → ps = params)
  ∧ ("-z" ∈ params ↔ time arguments = true)
  ∧ (∀ w, params !! 3%nat = Some (Py.str_int w) → w = workers arguments)
  ∧ (∀ d, model_directory arguments = d +:+ "/" →
       params !! 7%nat = Some (d +:+ "/train.responses")).
Proof.
  intros dir params o. subst o.
  pose proof (generate_model_with_parameters_unfold arguments s) as Hun.
  simpl in Hun. fold dir in Hun. rewrite Hun. clear Hun.
  change (mirt_train_params arguments) with params.
  split_and!.
  - destruct (mkdir_p (PathStr dir) s) as [s1 [e|[]]]; [left; eauto|].
    right. by destruct (run_programmatically params s1).
  - intros s1 ->. by destruct (run_programmatically params s1).
  - intros ps. destruct (mkdir_p (PathStr dir) s) as [s1 [e|[]]].
    + cbn [log]. by intros [=]%list_elem_of_singleton.
    + destruct (run_programmatically params s1). cbn [log].
      rewrite elem_of_cons, list_elem_of_singleton. by intros [[=]|[= ->]].
  - subst params. split.
    + destruct (time arguments); [done|]. rewrite app_nil_r.
      pose proof (str_int_not_switch (abilities arguments)).
      pose proof (str_int_not_switch (workers arguments)).
      pose proof (str_int_not_switch (num_epochs arguments)).
      pose proof (train_responses_not_switch (model_directory arguments)).
      pose proof (ends_with_slash_not_switch
                    (model_directory arguments +:+ gen_param_str arguments)).
      unfold dir. rewrite <-PyFacts.string_app_assoc.
      set_unfold. intros Hin. repeat destruct Hin as [Hin|Hin]; try done;
        by symmetry in Hin.
    + intros ->. set_solver.
  - intros w. subst params. simpl. intros [= Hw].
    symmetry. by apply PyFacts.str_int_inj.
  - intros d Hd. subst params. simpl. rewrite Hd.
    by rewrite PyFacts.string_app_assoc.
Qed.

(** ** The driver *)

Ltac solve_prefix :=
  cbn [app]; repeat apply prefix_cons; first [apply prefix_nil | reflexivity].

(** Case analysis on the membership of an event in an explicit list. *)
Ltac event_cases Hin :=
  repeat (apply elem_of_cons in Hin as [Hin|Hin]; [try discriminate Hin|]);
  try (by apply elem_of_nil in Hin).

(** The train stage performs its steps in a fixed order and stops at the
    first one that raises. *)
Lemma train_stage_steps arguments s :
  let dir := model_directory arguments +:+ gen_param_str arguments +:+ "/" in
  let roc_dir := model_directory arguments +:+ "rocs/" in
  let o := train_stage arguments s in
  ∃ latest,
    let steps :=
      [ MkdirP (PathList [roc_dir]);
        SepIntoTrainAndTest arguments;
        Print "Training MIRT models";
        MkdirP (PathStr dir);
        RunProgrammatically (mirt_train_params arguments);
        Listdir dir;
        Print ("Saving model to " +:+ model arguments);
        Copyfile (dir +:+ latest) (model arguments) ] in
    log o `prefix_of` steps
    ∧ (result o = inr tt →
         log o = steps
         ∧ ∃ bytes, fs_files (final o) !! (dir +:+ latest) = Some bytes
             ∧ fs_files (final o) !! model arguments = Some bytes).
Proof.
  intros dir roc_dir o. subst o.
  unfold train_stage, bind, make_necessary_directories, call, emit.
  fold roc_dir.
  destruct (mkdir_p (PathList [roc_dir]) s) as [s1 [e|[]]]; cbn [result log final].
  { exists "". split; [solve_prefix|done]. }
  destruct (sep_into_train_and_test arguments s1) as [s2 [e|[]]];
    cbn [result log final].
  { exists "". split; [solve_prefix|done]. }
  pose proof (generate_model_with_parameters_unfold arguments s2) as Hgen.
  simpl in Hgen. fold dir in Hgen. rewrite Hgen. clear Hgen.
  destruct (mkdir_p (PathStr dir) s2) as [s3 [e|[]]]; cbn [result log final].
  { exists "". split; [solve_prefix|done]. }
  destruct (run_programmatically (mirt_train_params arguments) s3)
    as [s4 [e|[]]]; cbn [result log final].
  { exists "". split; [solve_prefix|done]. }
  pose proof (save_model_unfold arguments s4) as Hsave.
  simpl in Hsave. fold dir in Hsave. rewrite Hsave. clear Hsave.
  destruct (fs_dirs s4 !! dir) as [entries|]; cbn [result log final].
  2:{ exists "". split; [solve_prefix|done]. }
  destruct (last (Py.sort_by_key sort_key entries)) as [latest|];
    cbn [result log final].
  2:{ exists "". split; [solve_prefix|done]. }
  destruct (shutil_copyfile (dir +:+ latest) (model arguments) s4)
    as [s5 [e|[]]] eqn:Hcp; cbn [result log final].
  { exists latest. split; [solve_prefix|done]. }
  exists latest. split; [solve_prefix|]. intros _. split; [done|].
  apply shutil_copyfile_ok in Hcp as (Hne & bytes & Hsrc & Hfiles & _).
  exists bytes. rewrite Hfiles.
  by rewrite lookup_insert_ne, lookup_insert_eq.
Qed.

(** The generate stage calls the generator between two messages. *)
Lemma generate_stage_steps arguments s :
  log (generate_stage arguments s) `prefix_of`
    [ Print "Generating Responses";
      GenerateResponses arguments;
      Print ("Generated responses for "
             +:+ Py.str_int (num_students arguments) +:+ " students and "
             +:+ Py.str_int (num_problems arguments) +:+ " ") ].
Proof.
  unfold generate_stage, bind, call, emit. cbn [result log final].
  destruct (generate_responses_run arguments s) as [s1 [e|[]]];
    cbn [result log final]; solve_prefix.
Qed.

(** The visualize stage evaluates, then renders. *)
Lemma visualize_stage_steps arguments params s :
  ∃ curve,
    log (visualize_stage arguments params s) `prefix_of`
      [ LoadAndSimulateAssessment (model arguments)
          (model_directory arguments +:+ "rocs/" +:+ datetime arguments)
          (model_directory arguments +:+ "test.responses");
        Print ("visualizing for " +:+ model arguments);
        ShowRoc params curve;
        ShowExercises (model arguments) ].
Proof.
  unfold visualize_stage, generate_roc_curve_from_model, bind, call, emit.
  rewrite PyFacts.string_app_assoc.
  destruct (load_and_simulate_assessment _ _ _ s) as [s1 [e|curve]];
    cbn [result log final].
  { exists []. solve_prefix. }
  exists curve.
  destruct (show_roc params curve s1) as [s2 [e|[]]]; cbn [result log final].
  { solve_prefix. }
  destruct (show_exercises (model arguments) s2) as [s3 r];
    cbn [result log final]. solve_prefix.
Qed.

Lemma prefix_elem_of {A} (l1 l2 : list A) x :
  l1 `prefix_of` l2 → x ∈ l1 → x ∈ l2.
Proof. intros [k ->] Hx. apply elem_of_app. by left. Qed.

Lemma bind_assoc {X Y Z} (m : M (roc_point := roc_point) X)
    (f : X → M Y) (g : Y → M Z) s :
  bind (bind m f) g s = bind m (λ x, bind (f x) g) s.
Proof.
  unfold bind. destruct (result (m s)) as [e|x]; cbn [result log final]; [done|].
  destruct (result (f x (final (m s)))) as [e|y]; cbn [result log final];
    [done|]. by rewrite app_assoc.
Qed.

(** [run_with_arguments] is the data stages followed by the two consumers
    of the model. *)
Lemma run_with_arguments_split arguments s :
  run_with_arguments arguments s =
    bind (bind (when (generate arguments) (generate_stage arguments))
               (λ _, when (train arguments) (train_stage arguments)))
         (λ _, bind (when (visualize arguments)
                       (visualize_stage arguments (gen_param_str arguments)))
                    (λ _, when (test arguments) (test_stage arguments))) s.
Proof. unfold run_with_arguments. by rewrite bind_assoc. Qed.

(** Nothing before the test stage starts the adaptive test. *)
Lemma generate_stage_no_test arguments s m :
  AdaptivePretest m ∉ log (generate_stage arguments s).
Proof.
  intros Hin. eapply prefix_elem_of in Hin; [|apply generate_stage_steps].
  event_cases Hin.
Qed.

Lemma train_stage_no_test arguments s m :
  AdaptivePretest m ∉ log (train_stage arguments s).
Proof.
  intros Hin. destruct (train_stage_steps arguments s) as (latest & Hpre & _).
  eapply prefix_elem_of in Hin; [|exact Hpre].
  event_cases Hin.
Qed.

Lemma visualize_stage_no_test arguments params s m :
  AdaptivePretest m ∉ log (visualize_stage arguments params s).
Proof.
  intros Hin. destruct (visualize_stage_steps arguments params s) as [curve Hpre].
  eapply prefix_elem_of in Hin; [|exact Hpre].
  event_cases Hin.
Qed.

Lemma data_stages_no_test arguments s m :
  AdaptivePretest m ∉
    log (bind (when (generate arguments) (generate_stage arguments))
              (λ _, when (train arguments) (train_stage arguments)) s).
Proof.
  unfold bind, when.
  pose proof (generate_stage_no_test arguments s m) as Hg.
  destruct (generate arguments); cbn [ret result log final].
  - destruct (result (generate_stage arguments s)) as [e|[]];
      cbn [result log final]; [done|].
    rewrite elem_of_app. intros [?|Hin]; [done|].
    destruct (train arguments); [by apply train_stage_no_test in Hin|].
    by apply elem_of_nil in Hin.
  - destruct (train arguments); cbn [app ret log].
    + apply train_stage_no_test.
    + apply not_elem_of_nil.
Qed.

(** The train stage, step by step: each collaborator is called on the
    state the previous step left, and the first exception ends the
    stage. *)
Lemma train_stage_unfold arguments s :
  let dir := model_directory arguments +:+ gen_param_str arguments +:+ "/" in
  let roc_dir := model_directory arguments +:+ "rocs/" in
  let params := mirt_train_params arguments in
  let e1 := MkdirP (PathList [roc_dir]) in
  let e2 := SepIntoTrainAndTest arguments in
  let e3 := Print "Training MIRT models" in
  let e4 := MkdirP (PathStr dir) in
  let e5 := RunProgrammatically params in
  let e6 := Listdir dir in
  let e7 := Print ("Saving model to " +:+ model arguments) in
  train_stage arguments s =
    match mkdir_p (PathList [roc_dir]) s with
    | (s1, inl e) => Outcome [e1] s1 (inl e)
    | (s1, inr _) =>
    match sep_into_train_and_test arguments s1 with
    | (s2, inl e) => Outcome [e1; e2] s2 (inl e)
    | (s2, inr _) =>
    match mkdir_p (PathStr dir) s2 with
    | (s3, inl e) => Outcome [e1; e2; e3; e4] s3 (inl e)
    | (s3, inr _) =>
    match run_programmatically params s3 with
    | (s4, inl e) => Outcome [e1; e2; e3; e4; e5] s4 (inl e)
    | (s4, inr _) =>
    match fs_dirs s4 !! dir with
    | None => Outcome [e1; e2; e3; e4; e5; e6] s4 (inl (OSError dir))
    | Some entries =>
    match last (Py.sort_by_key sort_key entries) with
    | None => Outcome [e1; e2; e3; e4; e5; e6] s4 (inl IndexError)
    | Some latest =>
        let '(s5, r) :=
          shutil_copyfile (dir +:+ latest) (model arguments) s4 in
        Outcome [e1; e2; e3; e4; e5; e6; e7;
                 Copyfile (dir +:+ latest) (model arguments)] s5 r
    end end end end end end.
Proof.
  intros dir roc_dir params e1 e2 e3 e4 e5 e6 e7.
  unfold train_stage, bind, make_necessary_directories, call, emit.
  fold roc_dir.
  destruct (mkdir_p (PathList [roc_dir]) s) as [s1 [e|[]]];
    cbn [result log final]; [done|].
  destruct (sep_into_train_and_test arguments s1) as [s2 [e|[]]];
    cbn [result log final]; [done|].
  pose proof (generate_model_with_parameters_unfold arguments s2) as Hgen.
  simpl in Hgen. fold dir params in Hgen. rewrite Hgen. clear Hgen.
  destruct (mkdir_p (PathStr dir) s2) as [s3 [e|[]]]; cbn [result log final];
    [done|].
  destruct (run_programmatically params s3) as [s4 [e|[]]];
    cbn [result log final]; [done|].
  pose proof (save_model_unfold arguments s4) as Hsave.
  simpl in Hsave. fold dir in Hsave. rewrite Hsave. clear Hsave.
  destruct (fs_dirs s4 !! dir) as [entries|]; cbn [result log final]; [|done].
  destruct (last (Py.sort_by_key sort_key entries)) as [latest|];
    cbn [result log final]; [|done].
  by destruct (shutil_copyfile (dir +:+ latest) (model arguments) s4).
Qed.

(** C7: with the train stage selected, and once any requested generation
    has succeeded, the driver performs these steps in this order, each on
    the state the previous one left, stopping at the first that raises:
    create the rocs directory, split the data set, create the artifact
    directory, call the trainer, list the artifact directory, copy the
    selected snapshot to the model path.  The first step is always
    performed; when the collaborators return and the trainer has left a
    snapshot, all of them are performed, up to and including the copy.
    When all of them succeed the model path holds the bytes of the
    selected snapshot, whatever it held before. *)
Theorem train_stage_runs_steps_in_order arguments s :
  train arguments = true →
  let dir := model_directory arguments +:+ gen_param_str arguments +:+ "/" in
  let roc_dir := model_directory arguments +:+ "rocs/" in
  let before := when (generate arguments) (generate_stage arguments) s in
  result before = inr tt →
  let o := train_stage arguments (final before) in
  (∃ latest,
    let steps :=
      [ MkdirP (PathList [roc_dir]);
        SepIntoTrainAndTest arguments;
        Print "Training MIRT models";
        MkdirP (PathStr dir);
        RunProgrammatically (mirt_train_params arguments);
        Listdir dir;
        Print ("Saving model to " +:+ model arguments);
        Copyfile (dir +:+ latest) (model arguments) ] in
    log o `prefix_of` steps
    ∧ (result o = inr tt →
         log o = steps
         ∧ ∃ bytes, fs_files (final o) !! (dir +:+ latest) = Some bytes
             ∧ fs_files (final o) !! model arguments = Some bytes)
    ∧ (∃ rest, log (run_with_arguments arguments s)
               = log before ++ log o ++ rest)
    ∧ (∀ e, result o = inl e →
         log (run_with_arguments arguments s) = log before ++ log o
         ∧ result (run_with_arguments arguments s) = inl e))
  ∧ (∃ rest rest', log o = MkdirP (PathList [roc_dir]) :: rest
       ∧ log (run_with_arguments arguments s)
         = log before ++ MkdirP (PathList [roc_dir]) :: rest')
  ∧ (∀ s1 s2 s3 s4 entries,
       mkdir_p (PathList [roc_dir]) (final before) = (s1, inr tt) →
       sep_into_train_and_test arguments s1 = (s2, inr tt) →
       mkdir_p (PathStr dir) s2 = (s3, inr tt) →
       run_programmatically (mirt_train_params arguments) s3 = (s4, inr tt) →
       fs_dirs s4 !! dir = Some entries → entries ≠ [] →
       ∃ latest,
         last (Py.sort_by_key sort_key entries) = Some latest
         ∧ log o =
             [ MkdirP (PathList [roc_dir]);
               SepIntoTrainAndTest arguments;
               Print "Training MIRT models";
               MkdirP (PathStr dir);
               RunProgrammatically (mirt_train_params arguments);
               Listdir dir;
               Print ("Saving model to " +:+ model arguments);
               Copyfile (dir +:+ latest) (model arguments) ]
         ∧ final o
           = (shutil_copyfile (dir +:+ latest) (model arguments) s4).1
         ∧ result o
           = (shutil_copyfile (dir +:+ latest) (model arguments) s4).2)
  ∧ o =
      match mkdir_p (PathList [roc_dir]) (final before) with
      | (s1, inl e) => Outcome [MkdirP (PathList [roc_dir])] s1 (inl e)
      | (s1, inr _) =>
      match sep_into_train_and_test arguments s1 with
      | (s2, inl e) =>
          Outcome [MkdirP (PathList [roc_dir]);
                   SepIntoTrainAndTest arguments] s2 (inl e)
      | (s2, inr _) =>
      match mkdir_p (PathStr dir) s2 with
      | (s3, inl e) =>
          Outcome [MkdirP (PathList [roc_dir]);
                   SepIntoTrainAndTest arguments;
                   Print "Training MIRT models";
                   MkdirP (PathStr dir)] s3 (inl e)
      | (s3, inr _) =>
      match run_programmatically (mirt_train_params arguments) s3 with
      | (s4, inl e) =>
          Outcome [MkdirP (PathList [roc_dir]);
                   SepIntoTrainAndTest arguments;
                   Print "Training MIRT models";
                   MkdirP (PathStr dir);
                   RunProgrammatically (mirt_train_params arguments)]
            s4 (inl e)
      | (s4, inr _) =>
      match fs_dirs s4 !! dir with
      | None =>
          Outcome [MkdirP (PathList [roc_dir]);
                   SepIntoTrainAndTest arguments;
                   Print "Training MIRT models";
                   MkdirP (PathStr dir);
                   RunProgrammatically (mirt_train_params arguments);
                   Listdir dir] s4 (inl (OSError dir))
      | Some entries =>
      match last (Py.sort_by_key sort_key entries) with
      | None =>
          Outcome [MkdirP (PathList [roc_dir]);
                   SepIntoTrainAndTest arguments;
                   Print "Training MIRT models";
                   MkdirP (PathStr dir);
                   RunProgrammatically (mirt_train_params arguments);
                   Listdir dir] s4 (inl IndexError)
      | Some latest =>
          let '(s5, r) :=
            shutil_copyfile (dir +:+ latest) (model arguments) s4 in
          Outcome [MkdirP (PathList [roc_dir]);
                   SepIntoTrainAndTest arguments;
                   Print "Training MIRT models";
                   MkdirP (PathStr dir);
                   RunProgrammatically (mirt_train_params arguments);
                   Listdir dir;
                   Print ("Saving model to " +:+ model arguments);
                   Copyfile (dir +:+ latest) (model arguments)] s5 r
      end end end end end end.
Proof.
  intros Htrain dir roc_dir before Hbefore o.
  assert (run_with_arguments arguments s =
            match result o with
            | inl e => Outcome (log before ++ log o) (final o) (inl e)
            | inr _ =>
                let r := bind (when (visualize arguments)
                                 (visualize_stage arguments
                                    (gen_param_str arguments)))
                              (λ _, when (test arguments)
                                      (test_stage arguments)) (final o) in
                Outcome (log before ++ log o ++ log r) (final r) (result r)
            end) as Hrun.
  { unfold run_with_arguments. unfold bind at 1. fold before.
    rewrite Hbefore, Htrain. cbn [when result log final].
    set (inner := bind (train_stage arguments) _ (final before)).
    assert (inner =
              match result o with
              | inl e => Outcome (log o) (final o) (inl e)
              | inr _ =>
                  let r := bind (when (visualize arguments)
                                   (visualize_stage arguments
                                      (gen_param_str arguments)))
                                (λ _, when (test arguments)
                                        (test_stage arguments)) (final o) in
                  Outcome (log o ++ log r) (final r) (result r)
              end) as ->.
    { subst inner. unfold bind at 1. fold o. by destruct (result o) as [e|[]]. }
    by destruct (result o) as [e|[]]. }
  pose proof (train_stage_unfold arguments (final before)) as Hun.
  cbn zeta in Hun. fold dir roc_dir o in Hun.
  split_and!.
  - destruct (train_stage_steps arguments (final before))
      as (latest & Hpre & Hok).
    exists latest. cbn zeta. split_and!; [done|done|..].
    + rewrite Hrun. destruct (result o) as [e|[]]; cbn [log]; [|by eauto].
      exists []. by rewrite app_nil_r.
    + intros e He. by rewrite Hrun, He.
  - assert (∃ rest, log o = MkdirP (PathList [roc_dir]) :: rest)
      as [rest Hrest].
    { rewrite Hun. repeat case_match; cbn [log]; eauto. }
    rewrite Hrun.
    destruct (result o) as [e|[]]; cbn [log]; rewrite Hrest.
    + by exists rest, rest.
    + eexists rest, _. split; [done|]. by rewrite <-app_comm_cons.
  - intros s1 s2 s3 s4 entries H1 H2 H3 H4 Hdir Hne.
    rewrite Hun, H1, H2, H3, H4, Hdir.
    destruct (PyFacts.sort_by_key_nonempty sort_key entries Hne)
      as [latest Hlast].
    exists latest. rewrite Hlast.
    by destruct (shutil_copyfile (dir +:+ latest) (model arguments) s4).
  - exact Hun.
Qed.

(** C10: in the train stage the directory created, the directory given to
    the trainer after -o, and the directory listed to find the snapshot are
    the same string, model_directory + gen_param_str + '/'. *)
Theorem trainer_and_resolver_share_directory arguments s :
  let dir := model_directory arguments +:+ gen_param_str arguments +:+ "/" in
  let o := train_stage arguments s in
  (∀ ps, RunProgrammatically ps ∈ log o →
     ps !! 8%nat = Some "-o" ∧ ps !! 9%nat = Some dir)
  ∧ (∀ p, Listdir p ∈ log o → p = dir)
  ∧ (∀ p, MkdirP (PathStr p) ∈ log o → p = dir)
  ∧ (result o = inr tt →
       MkdirP (PathStr dir) ∈ log o
       ∧ RunProgrammatically (mirt_train_params arguments) ∈ log o
       ∧ Listdir dir ∈ log o).
Proof.
  intros dir o.
  destruct (train_stage_steps arguments s) as (latest & Hpre & Hok).
  fold o in Hpre, Hok. cbn zeta in Hpre, Hok. fold dir in Hpre, Hok.
  split_and!.
  - intros ps Hin. eapply prefix_elem_of in Hin; [|exact Hpre].
    event_cases Hin. by injection Hin as ->.
  - intros p Hin. eapply prefix_elem_of in Hin; [|exact Hpre].
    event_cases Hin. by injection Hin as ->.
  - intros p Hin. eapply prefix_elem_of in Hin; [|exact Hpre].
    event_cases Hin. by injection Hin as ->.
  - intros Hres. destruct (Hok Hres) as [-> _].
    rewrite !elem_of_cons. tauto.
Qed.

(** C3 (amended): an exception raised in the visualize stage leaves
    [run_with_arguments]; the run ends with that exception and the adaptive
    test is never started.  The test stage is reached only when the
    visualize stage returns. *)
Theorem visualize_failure_aborts_run arguments s :
  visualize arguments = true →
  let before :=
    bind (when (generate arguments) (generate_stage arguments))
         (λ _, when (train arguments) (train_stage arguments)) s in
  result before = inr tt →
  let vis :=
    visualize_stage arguments (gen_param_str arguments) (final before) in
  let o := run_with_arguments arguments s in
  (∀ e, result vis = inl e →
     result o = inl e
     ∧ log o = log before ++ log vis
     ∧ final o = final vis
     ∧ ∀ m, AdaptivePretest m ∉ log o)
  ∧ (result vis = inr tt → test arguments = true →
       log o = log before ++ log vis ++ [AdaptivePretest (model arguments)]).
Proof.
  intros Hvis before Hbefore vis o.
  assert (o = match result vis with
              | inl e => Outcome (log before ++ log vis) (final vis) (inl e)
              | inr _ =>
                  let t := when (test arguments) (test_stage arguments)
                             (final vis) in
                  Outcome (log before ++ log vis ++ log t) (final t) (result t)
              end) as ->.
  { subst o. rewrite run_with_arguments_split. unfold bind at 1. fold before.
    rewrite Hbefore, Hvis. cbn [when result log final]. unfold bind.
    fold vis. by destruct (result vis). }
  split.
  - intros e He. rewrite He. cbn [result log final]. split_and!; try done.
    intros m. rewrite elem_of_app. intros [Hin|Hin].
    + by apply data_stages_no_test in Hin.
    + by apply visualize_stage_no_test in Hin.
  - intros Hok Htest. rewrite Hok, Htest. cbn [when result log final].
    unfold test_stage, call.
    by destruct (adaptive_pretest_main (model arguments) (final vis)).
Qed.

End Properties.

(** ** The script on the concrete world *)

Module Runs.

Lemma resolve_selects_last_of_sorted_witness :
  let s := Demo.disk_with ["a_10"; "a_1"; "a_2"] in
  fs_dirs s !! (model_directory Demo.train_only
                +:+ gen_param_str Demo.train_only +:+ "/")
  = Some ["a_10"; "a_1"; "a_2"]
  ∧ ["a_10"; "a_1"; "a_2"] ≠ ([] : list string)
  ∧ result (get_latest_parameter_file_name (roc_point := Z * Z)
              Demo.train_only s)
    = inr (Demo.artifact_dir +:+ "a_2").
Proof.
  intros s.
  assert (fs_dirs s !! (model_directory Demo.train_only
                        +:+ gen_param_str Demo.train_only +:+ "/")
          = Some ["a_10"; "a_1"; "a_2"]) as Hdir by (vm_compute; reflexivity).
  assert (["a_10"; "a_1"; "a_2"] ≠ ([] : list string)) as Hne by discriminate.
  split; [exact Hdir|]. split; [exact Hne|].
  destruct (resolve_selects_last_of_sorted (roc_point := Z * Z)
              Demo.train_only s _ Hdir Hne)
    as (latest & Hres & _ & _ & _ & _ & _ & _ & Hexample & _).
  rewrite Hres, Hexample; [reflexivity|].
  etrans; [apply Permutation_swap|]. apply Permutation_skip, Permutation_swap.
Defined.

Lemma resolve_fails_exactly_on_empty_listing_witness :
  let s := Demo.disk_with [] in
  fs_dirs s !! (model_directory Demo.train_only
                +:+ gen_param_str Demo.train_only +:+ "/") = Some []
  ∧ result (get_latest_parameter_file_name (roc_point := Z * Z)
              Demo.train_only s) = inl IndexError.
Proof.
  intros s.
  assert (fs_dirs s !! (model_directory Demo.train_only
                        +:+ gen_param_str Demo.train_only +:+ "/")
          = Some []) as Hdir by (vm_compute; reflexivity).
  split; [exact Hdir|].
  destruct (resolve_fails_exactly_on_empty_listing (roc_point := Z * Z)
              Demo.train_only s _ Hdir) as [_ Hempty].
  destruct (Hempty eq_refl) as [Hres _]. exact Hres.
Defined.

Lemma gen_param_str_unique_per_triple_witness :
  datetime Demo.train_only ≠ "2014-07-01 10:20:31.000000"
  ∧ gen_param_str Demo.train_only
    ≠ gen_param_str
        (set_datetime Demo.train_only "2014-07-01 10:20:31.000000").
Proof.
  assert (datetime Demo.train_only
          ≠ datetime (set_datetime Demo.train_only
                        "2014-07-01 10:20:31.000000")) as Hne by discriminate.
  split; [exact Hne|].
  destruct (gen_param_str_unique_per_triple Demo.train_only
              (set_datetime Demo.train_only "2014-07-01 10:20:31.000000"))
    as (_ & _ & _ & Hdistinct).
  exact (Hdistinct Hne).
Defined.

(** C2, as stated, fails: an ability count of 0 is accepted and stored. *)
Lemma zero_abilities_accepted :
  let o := get_command_line_arguments (C := Demo.stubs)
             (Some [OptTrain; OptAbilities 0; OptWorkers 0; OptNumEpochs 0])
             [] Demo.now Demo.disk in
  (∃ ns, result o = inr ns
     ∧ abilities ns = 0%Z ∧ workers ns = 0%Z ∧ num_epochs ns = 0%Z)
  ∧ ¬ ∃ e, result o = inl e.
Proof.
  intros o. split.
  - eexists. split; [reflexivity|]. by vm_compute.
  - intros [e He]. vm_compute in He. discriminate He.
Qed.

Lemma construction_stores_counts_unchecked_witness :
  ∃ ns, result (get_command_line_arguments (C := Demo.stubs)
                  (Some [OptAbilities 3; OptWorkers 4]) [] Demo.now Demo.disk)
        = inr ns
    ∧ abilities ns = 3%Z ∧ workers ns = 4%Z.
Proof.
  destruct (construction_stores_counts_unchecked (C := Demo.stubs)
              (Some [OptAbilities 3; OptWorkers 4]) [] Demo.now Demo.disk)
    as (_ & _ & _ & _ & Hexample).
  exact (Hexample eq_refl).
Defined.

Lemma no_stage_prints_usage_only_witness :
  let argv := [OptAbilities 2; OptTime] in
  (OptGenerate ∉ argv) ∧ (OptTrain ∉ argv)
  ∧ (OptVisualize ∉ argv) ∧ (OptTest ∉ argv)
  ∧ log (main (C := Demo.stubs) argv Demo.now Demo.disk)
    = [Print usage_message; PrintHelp]
  ∧ final (main (C := Demo.stubs) argv Demo.now Demo.disk) = Demo.disk
  ∧ result (main (C := Demo.stubs) argv Demo.now Demo.disk) = inr tt.
Proof.
  intros argv.
  assert (∀ o, (∀ v, o ≠ OptAbilities v) → o ≠ OptTime → o ∉ argv) as Hno.
  { intros o Ha Ht. unfold argv.
    rewrite !not_elem_of_cons. split_and!; [apply Ha|exact Ht|].
    apply not_elem_of_nil. }
  assert (OptGenerate ∉ argv) as Hg by (apply Hno; discriminate).
  assert (OptTrain ∉ argv) as Ht by (apply Hno; discriminate).
  assert (OptVisualize ∉ argv) as Hv by (apply Hno; discriminate).
  assert (OptTest ∉ argv) as Hte by (apply Hno; discriminate).
  destruct (no_stage_prints_usage_only (C := Demo.stubs) argv Demo.now
              Demo.disk Hg Ht Hv Hte) as (Hlog & Hfinal & Hres & _).
  split_and!; [exact Hg|exact Ht|exact Hv|exact Hte|..]; assumption.
Defined.

(** A trainer that writes no snapshot: the train stage stops at the
    listing with IndexError and the older model is left as it was. *)
Example silent_trainer_run :
  let o := run_with_arguments (C := Demo.silent_trainer) Demo.train_only
             Demo.disk in
  result o = inl IndexError
  ∧ last (log o) = Some (Listdir Demo.artifact_dir)
  ∧ fs_files (final o) !! "m/model.json" = Some "old".
Proof. intros o. split_and!; by vm_compute. Qed.

(** A trainer stub that leaves snapshots behind: the later one becomes the
    model and both stay in the artifact directory. *)
Example train_only_run :
  let o := run_with_arguments (C := Demo.stubs) Demo.train_only Demo.disk in
  result o = inr tt
  ∧ fs_files (final o) !! "m/model.json" = Some "theta-2"
  ∧ fs_files (final o) !! (Demo.artifact_dir +:+ "snap_0002") = Some "theta-2"
  ∧ fs_dirs (final o) !! Demo.artifact_dir = Some ["snap_0001"; "snap_0002"].
Proof. intros o. split_and!; by vm_compute. Qed.

Lemma train_stage_runs_steps_in_order_witness :
  let a := Demo.train_only in
  let s1 := (Demo.make_dirs (PathList ["m/rocs/"]) Demo.disk).1 in
  let s2 := (Demo.splitter a s1).1 in
  let s3 := (Demo.make_dirs (PathStr Demo.artifact_dir) s2).1 in
  let s4 := (Demo.trainer (mirt_train_params a) s3).1 in
  let o := train_stage (C := Demo.stubs) a Demo.disk in
  train a = true
  ∧ result (when (generate a) (generate_stage (C := Demo.stubs) a) Demo.disk)
    = inr tt
  ∧ fs_dirs s4 !! Demo.artifact_dir = Some ["snap_0001"; "snap_0002"]
  ∧ log o =
      [ MkdirP (PathList ["m/rocs/"]);
        SepIntoTrainAndTest a;
        Print "Training MIRT models";
        MkdirP (PathStr Demo.artifact_dir);
        RunProgrammatically (mirt_train_params a);
        Listdir Demo.artifact_dir;
        Print "Saving model to m/model.json";
        Copyfile (Demo.artifact_dir +:+ "snap_0002") "m/model.json" ]
  ∧ result o = inr tt
  ∧ fs_files (final o) !! "m/model.json" = Some "theta-2".
Proof.
  intros a s1 s2 s3 s4 o.
  assert (train a = true) as Htrain by reflexivity.
  assert (result (when (generate a) (generate_stage (C := Demo.stubs) a)
                    Demo.disk) = inr tt) as Hbefore by reflexivity.
  assert (fs_dirs s4 !! Demo.artifact_dir = Some ["snap_0001"; "snap_0002"])
    as Hdir by (vm_compute; reflexivity).
  split; [exact Htrain|]. split; [exact Hbefore|]. split; [exact Hdir|].
  destruct (train_stage_runs_steps_in_order (C := Demo.stubs) a Demo.disk
              Htrain Hbefore) as (_ & _ & Hall & _).
  destruct (Hall s1 s2 s3 s4 ["snap_0001"; "snap_0002"])
    as (latest & Hlast & Hlog & Hfinal & Hres);
    [reflexivity|reflexivity|reflexivity|reflexivity|exact Hdir|discriminate|].
  assert (latest = "snap_0002") as ->.
  { vm_compute in Hlast. by injection Hlast as <-. }
  pose proof (Hlog : log o = _) as Hlog'.
  pose proof (Hfinal : final o = _) as Hfinal'.
  pose proof (Hres : result o = _) as Hres'.
  split; [exact Hlog'|]. split.
  - rewrite Hres'. vm_compute. reflexivity.
  - rewrite Hfinal'. vm_compute. reflexivity.
Defined.

Lemma save_model_copies_snapshot_witness :
  let s := Demo.disk_with ["snap_0002"; "snap_0001"] in
  result (save_model (roc_point := Z * Z) Demo.train_only s) = inr tt
  ∧ ∃ bytes,
      fs_files (final (save_model (roc_point := Z * Z) Demo.train_only s))
        !! model Demo.train_only = Some bytes.
Proof.
  intros s.
  assert (result (save_model (roc_point := Z * Z) Demo.train_only s) = inr tt)
    as Hok by (vm_compute; reflexivity).
  split; [exact Hok|].
  destruct (save_model_copies_snapshot (roc_point := Z * Z) Demo.train_only s Hok)
    as (latest & bytes & entries & entries' & _ & _ & _ & _ & _ & Hmodel & _).
  exists bytes. exact Hmodel.
Defined.

(** C9, as stated, fails: for a model directory written without its
    trailing slash the trainer is given model_directory + train.responses
    with no separator between them, a path outside that directory. *)
Lemma train_subset_path_lacks_separator :
  let a := MkNamespace false true false false "all.responses" 1 500 10 false
             1 100 "out" "out/model.json" Demo.now in
  let o := generate_model_with_parameters (C := Demo.stubs) a Demo.disk in
  (∃ ps, RunProgrammatically ps ∈ log o
     ∧ ps !! 6%nat = Some "-f"
     ∧ ps !! 7%nat = Some "outtrain.responses")
  ∧ "outtrain.responses" ≠ model_directory a +:+ "/" +:+ "train.responses".
Proof.
  intros a o. split; [|discriminate].
  exists (mirt_train_params a). split_and!; [|reflexivity..].
  vm_compute. right. left.
Qed.

Lemma trainer_receives_run_parameters_witness :
  Demo.make_dirs (PathStr Demo.artifact_dir) Demo.disk
  = (Demo.make_dir Demo.artifact_dir Demo.disk, inr tt)
  ∧ log (generate_model_with_parameters (C := Demo.stubs) Demo.train_only
           Demo.disk)
    = [ MkdirP (PathStr Demo.artifact_dir);
        RunProgrammatically
          [ "-a"; "3"; "-w"; "4"; "-n"; "100"; "-f"; "m/train.responses";
            "-o"; Demo.artifact_dir; "-z" ] ].
Proof.
  assert (Demo.make_dirs (PathStr Demo.artifact_dir) Demo.disk
          = (Demo.make_dir Demo.artifact_dir Demo.disk, inr tt)) as Hmk
    by reflexivity.
  split; [exact Hmk|].
  destruct (trainer_receives_run_parameters (C := Demo.stubs) Demo.train_only
              Demo.disk) as (_ & Hlog & _).
  exact (Hlog _ Hmk).
Defined.

Lemma trainer_and_resolver_share_directory_witness :
  result (train_stage (C := Demo.stubs) Demo.train_only Demo.disk) = inr tt
  ∧ Listdir Demo.artifact_dir
    ∈ log (train_stage (C := Demo.stubs) Demo.train_only Demo.disk).
Proof.
  assert (result (train_stage (C := Demo.stubs) Demo.train_only Demo.disk)
          = inr tt) as Hok by (vm_compute; reflexivity).
  split; [exact Hok|].
  destruct (trainer_and_resolver_share_directory (C := Demo.stubs)
              Demo.train_only Demo.disk) as (_ & _ & _ & Hboth).
  destruct (Hboth Hok) as (_ & _ & Hlist). exact Hlist.
Defined.

(** C3, as stated, fails: with both consumers requested and an evaluator
    that raises, the run ends in the visualize stage and the adaptive test
    is not started. *)
Lemma visualize_failure_skips_test :
  let a := Demo.visualize_and_test in
  let o := run_with_arguments (C := Demo.failing_evaluator) a Demo.disk in
  visualize a = true ∧ test a = true
  ∧ result (visualize_stage (C := Demo.failing_evaluator) a (gen_param_str a)
              Demo.disk)
    = inl (CollaboratorError "load_and_simulate_assessment")
  ∧ result o = inl (CollaboratorError "load_and_simulate_assessment")
  ∧ log o = [ LoadAndSimulateAssessment "m/model.json"
                "m/rocs/2014-07-01 10:20:30.000400" "m/test.responses" ]
  ∧ AdaptivePretest (model a) ∉ log o.
Proof.
  intros a o. split_and!; [by vm_compute..|].
  intros Hin. vm_compute in Hin.
  apply list_elem_of_singleton in Hin. discriminate Hin.
Qed.

Lemma visualize_failure_aborts_run_witness :
  let a := Demo.visualize_and_test in
  let e := CollaboratorError "load_and_simulate_assessment" in
  visualize a = true
  ∧ result (bind
              (when (generate a)
                 (generate_stage (C := Demo.failing_evaluator) a))
              (λ _, when (train a)
                      (train_stage (C := Demo.failing_evaluator) a))
              Demo.disk) = inr tt
  ∧ result (run_with_arguments (C := Demo.failing_evaluator) a Demo.disk)
    = inl e.
Proof.
  intros a e.
  assert (visualize a = true) as Hvis by reflexivity.
  assert (result (bind
                    (when (generate a)
                       (generate_stage (C := Demo.failing_evaluator) a))
                    (λ _, when (train a)
                      (train_stage (C := Demo.failing_evaluator) a))
              Demo.disk) = inr tt)
    as Hbefore by (vm_compute; reflexivity).
  split; [exact Hvis|]. split; [exact Hbefore|].
  destruct (visualize_failure_aborts_run (C := Demo.failing_evaluator)
              a Demo.disk Hvis Hbefore) as [Hfail _].
  destruct (Hfail e eq_refl) as [Hres _]. exact Hres.
Defined.

End Runs.

(** * Further properties *)

(** ** Strings and paths *)

Module PathFacts.
Import Py.

Lemma string_length_app (s t : string) :
  String.length (s +:+ t) = String.length s + String.length t.
Proof.
  induction s as [|c s IH]; [done|].
  rewrite PyFacts.string_app_cons. simpl. by rewrite IH.
Qed.

(** Concatenation cancels on the right. *)
Lemma string_app_inj_r (s1 s2 t : string) : s1 +:+ t = s2 +:+ t → s1 = s2.
Proof.
  revert s2. induction s1 as [|a s1 IH]; intros [|b s2] Heq; [done|..].
  - apply (f_equal String.length) in Heq.
    rewrite PyFacts.string_app_nil_l, PyFacts.string_app_cons in Heq.
    simpl in Heq. rewrite string_length_app in Heq. lia.
  - apply (f_equal String.length) in Heq.
    rewrite PyFacts.string_app_nil_l, PyFacts.string_app_cons in Heq.
    simpl in Heq. rewrite string_length_app in Heq. lia.
  - rewrite !PyFacts.string_app_cons in Heq. injection Heq as -> Heq.
    by rewrite (IH _ Heq).
Qed.

(** A string is cut in one way only at the last occurrence of a
    character. *)
Lemma cut_at_last c (p1 p2 k1 k2 : string) :
  has_char c k1 = false → has_char c k2 = false →
  p1 +:+ String c k1 = p2 +:+ String c k2 → p1 = p2 ∧ k1 = k2.
Proof.
  intros Hk1 Hk2. revert p2.
  induction p1 as [|a p1 IH]; intros [|b p2];
    rewrite ?PyFacts.string_app_cons, ?PyFacts.string_app_nil_l.
  - by intros [= ->].
  - intros [= <- ->]. rewrite PyFacts.has_char_app in Hk1. simpl in Hk1.
    rewrite bool_decide_eq_true_2 in Hk1 by done.
    by rewrite orb_true_r in Hk1.
  - intros [= -> <-]. rewrite PyFacts.has_char_app in Hk2. simpl in Hk2.
    rewrite bool_decide_eq_true_2 in Hk2 by done.
    by rewrite orb_true_r in Hk2.
  - intros [= -> Heq]. by destruct (IH _ Heq) as [-> ->].
Qed.

Lemma pretty_N_go_nonempty x s : s ≠ "" → pretty_N_go x s ≠ "".
Proof.
  revert s. induction (N.lt_wf_0 x) as [x _ IH]; intros s Hs.
  assert (x = 0 ∨ 0 < x)%N as [->|?] by lia.
  - by rewrite pretty_N_go_0.
  - rewrite pretty_N_go_step by done. apply IH; [by apply N.div_lt|done].
Qed.

(** [str] of an integer starts with a digit or the minus sign. *)
Lemma str_int_head n :
  ∃ c rest, str_int n = String c rest ∧ has_char c int_chars = true.
Proof.
  assert (str_int n ≠ "") as Hne.
  { unfold str_int, pretty, pretty_Z. destruct n as [|p|p]; [done| |done].
    unfold pretty, pretty_positive, pretty, pretty_N.
    case_decide; [done|]. rewrite pretty_N_go_step by lia.
    by apply pretty_N_go_nonempty. }
  destruct (str_int n) as [|c rest] eqn:Hs; [done|].
  exists c, rest. split; [done|].
  destruct (has_char c int_chars) eqn:Hc; [done|].
  pose proof (PyFacts.str_int_chars c n Hc) as Hno.
  rewrite Hs in Hno. simpl in Hno.
  by rewrite bool_decide_eq_true_2 in Hno.
Qed.

End PathFacts.

(** ** Names, paths and parameters *)

Section Naming.

(** X1: the sort key of a name [p_k] whose part [k] holds no underscore is
    [k], whatever the part before it; a name without underscore is its own
    key. *)
Theorem sort_key_extracts_suffix (p k n : string) :
  (Py.has_char "_" k = false → sort_key (p +:+ "_" +:+ k) = k)
  ∧ (Py.has_char "_" n = false → sort_key n = n).
Proof.
  split.
  - intros Hk.
    destruct (sort_key_spec (p +:+ "_" +:+ k)) as [Hkey [Hwhole|[p' Hcut]]].
    + rewrite <-Hwhole in Hkey. rewrite PyFacts.has_char_app in Hkey.
      simpl in Hkey. by rewrite orb_true_r in Hkey.
    + apply PathFacts.cut_at_last in Hcut as [_ Hcut]; done.
  - intros Hn. destruct (sort_key_spec n) as [Hkey [Hwhole|[p' Hcut]]]; [done|].
    rewrite Hcut, PyFacts.has_char_app in Hn. simpl in Hn.
    by rewrite orb_true_r in Hn.
Qed.

(** X2: a run identifier always holds an underscore, and it holds a slash
    only when the timestamp does: the ability count and the mode tag never
    add a path separator. *)
Theorem gen_param_str_separators (a : Namespace) :
  Py.has_char "_" (gen_param_str a) = true
  ∧ Py.has_char "/" (gen_param_str a) = Py.has_char "/" (datetime a).
Proof.
  unfold gen_param_str. rewrite !PyFacts.has_char_app. split.
  - simpl. by rewrite orb_true_r.
  - rewrite (PyFacts.str_int_chars "/" (abilities a)) by done.
    by destruct (time a).
Qed.

Lemma artifact_entry_has_underscore (a : Namespace) (rest : string) :
  Py.has_char "_" (gen_param_str a +:+ rest) = true.
Proof.
  unfold gen_param_str. rewrite !PyFacts.has_char_app. simpl.
  by rewrite orb_true_r.
Qed.

Lemma artifact_entry_not_under_rocs (a : Namespace) (rest dt : string) :
  gen_param_str a +:+ rest ≠ "rocs/" +:+ dt.
Proof.
  unfold gen_param_str.
  destruct (PathFacts.str_int_head (abilities a)) as (c & tl & Hs & Hc).
  rewrite Hs, !PyFacts.string_app_cons. intros [= -> _]. done.
Qed.

(** X3: nothing the other steps write under the model directory lies in
    the artifact directory: it is not the rocs directory, and no entry of
    it is the training subset, the test subset or a ROC report. *)
Theorem artifact_directory_isolated (a : Namespace) (n dt : string) :
  let md := model_directory a in
  let dir := md +:+ gen_param_str a +:+ "/" in
  dir ≠ md +:+ "rocs/"
  ∧ dir +:+ n ≠ md +:+ "train.responses"
  ∧ dir +:+ n ≠ md +:+ "test.responses"
  ∧ dir +:+ n ≠ md +:+ "rocs/" +:+ dt.
Proof.
  intros md dir. subst dir. split_and!.
  - intros Heq%(inj (String.app md)).
    by apply (artifact_entry_not_under_rocs a "/" "").
  - rewrite !PyFacts.string_app_assoc. intros Heq%(inj (String.app md)).
    pose proof (artifact_entry_has_underscore a ("/" +:+ n)) as Hu.
    by rewrite Heq in Hu.
  - rewrite !PyFacts.string_app_assoc. intros Heq%(inj (String.app md)).
    pose proof (artifact_entry_has_underscore a ("/" +:+ n)) as Hu.
    by rewrite Heq in Hu.
  - rewrite !PyFacts.string_app_assoc. intros Heq%(inj (String.app md)).
    by apply (artifact_entry_not_under_rocs a ("/" +:+ n) dt).
Qed.

Lemma gen_param_str_inj (a1 a2 : Namespace) :
  gen_param_str a1 = gen_param_str a2 →
  abilities a1 = abilities a2 ∧ time a1 = time a2 ∧ datetime a1 = datetime a2.
Proof.
  unfold gen_param_str. intros Heq.
  apply PyFacts.cut_at_first in Heq as [Ha Hrest];
    [|by apply PyFacts.str_int_chars..].
  apply PyFacts.str_int_inj in Ha.
  by apply time_tag_cut in Hrest as [??].
Qed.

(** X4: the argument list built for the trainer determines every field it
    was built from: two namespaces with the same list agree on ability
    count, worker count, epoch count, time flag, model directory and
    timestamp. *)
Theorem mirt_train_params_inj (a1 a2 : Namespace) :
  mirt_train_params a1 = mirt_train_params a2 →
  abilities a1 = abilities a2 ∧ workers a1 = workers a2
  ∧ num_epochs a1 = num_epochs a2 ∧ time a1 = time a2
  ∧ model_directory a1 = model_directory a2 ∧ datetime a1 = datetime a2.
Proof.
  unfold mirt_train_params. intros Heq.
  assert (model_directory a1 = model_directory a2
          ∧ gen_param_str a1 = gen_param_str a2
          ∧ workers a1 = workers a2 ∧ num_epochs a1 = num_epochs a2)
    as (Hmd & Hid & Hw & Hn).
  { cbn [app] in Heq.
    injection Heq as _ Hw Hn Hf Ho _.
    apply PathFacts.string_app_inj_r in Hf.
    rewrite Hf in Ho. apply (inj (String.app _)) in Ho.
    apply PathFacts.string_app_inj_r in Ho.
    split_and!; [done..| |]; by apply PyFacts.str_int_inj. }
  destruct (gen_param_str_inj _ _ Hid) as (? & ? & ?). done.
Qed.

End Naming.

(** ** Module initialisation *)

Section Initialisation.
Import Init.

(** X5: importing the script never fails for want of the affinity package
    or of a CPU count: both are absorbed, a missing package with a hint on
    standard error.  When the mask is set it is set for process 0 and has
    exactly the bits 0 .. cpu_count - 1. *)
Theorem module_init_sets_full_mask import_affinity cpu_count evs r :
  module_init import_affinity cpu_count = (evs, r) →
  r ≠ Some ImportError ∧ r ≠ Some NotImplementedError
  ∧ (import_affinity = inl ImportError →
       evs = [WriteStderr affinity_hint] ∧ r = None)
  ∧ (∀ pid mask, SetProcessAffinityMask pid mask ∈ evs →
       pid = 0%Z
       ∧ ∃ n, cpu_count = inr n
           ∧ ∀ i, Z.testbit mask i = true ↔ (0 ≤ i < Z.pos n)%Z).
Proof.
  assert (∀ done e evs' r', handle done e = (evs', r') →
            r' ≠ Some ImportError ∧ r' ≠ Some NotImplementedError
            ∧ ∀ ev, ev ∈ evs' → ev ∈ done ∨ ev = WriteStderr affinity_hint)
    as Hhandle.
  { intros done e evs' r'. destruct e; intros [= <- <-];
      split_and!; try done; intros ev; rewrite ?elem_of_app,
        ?list_elem_of_singleton; tauto. }
  assert (∀ n i, Z.testbit (2 ^ Z.pos n - 1) i = true ↔ (0 ≤ i < Z.pos n)%Z)
    as Hbits.
  { intros n i. rewrite Z.sub_1_r, <-Z.ones_equiv, Z.testbit_ones by lia.
    rewrite andb_true_iff, Z.leb_le, Z.ltb_lt. done. }
  unfold module_init. intros Hinit.
  destruct import_affinity as [e|set_mask].
  { destruct (Hhandle _ _ _ _ Hinit) as (? & ? & Hev).
    split_and!; try done.
    - intros [= ->]. by injection Hinit as <- <-.
    - intros pid mask [Hin|Hin]%Hev; [by apply elem_of_nil in Hin|done]. }
  destruct cpu_count as [e|n].
  { destruct (Hhandle _ _ _ _ Hinit) as (? & ? & Hev).
    split_and!; try done.
    intros pid mask [Hin|Hin]%Hev; [by apply elem_of_nil in Hin|done]. }
  assert (∀ pid mask,
            SetProcessAffinityMask pid mask
            ∈ [SetProcessAffinityMask 0 (2 ^ Z.pos n - 1)] →
            pid = 0%Z ∧ ∃ n', @inr init_exn _ n = inr n'
              ∧ ∀ i, Z.testbit mask i = true ↔ (0 ≤ i < Z.pos n')%Z)
    as Hset.
  { intros pid mask [= -> ->]%list_elem_of_singleton. eauto. }
  destruct (set_mask 0%Z (2 ^ Z.pos n - 1)%Z) as [e|].
  - destruct (Hhandle _ _ _ _ Hinit) as (? & ? & Hev).
    split_and!; try done.
    intros pid mask [Hin|Hin]%Hev; [by apply Hset|done].
  - injection Hinit as <- <-. split_and!; try done.
Qed.

End Initialisation.

(** ** Resolving and saving the model *)

Module SortFacts.
Import Py.

Lemma fmap_NoDup_inj_on {A B} (f : A → B) (l : list A) x y :
  NoDup (f <$> l) → x ∈ l → y ∈ l → f x = f y → x = y.
Proof.
  induction l as [|a l IH]; [by intros _ ?%elem_of_nil|].
  rewrite fmap_cons, NoDup_cons, !elem_of_cons.
  intros [Ha Hl] [->|Hx] [->|Hy] Hf; [done|..|by apply IH].
  - destruct Ha. rewrite Hf. by apply list_elem_of_fmap_2.
  - destruct Ha. rewrite <-Hf. by apply list_elem_of_fmap_2.
Qed.

(** With pairwise different keys the element a sort puts last does not
    depend on the order of the input. *)
Lemma sort_last_perm {A} (key : A → string) (l1 l2 : list A) :
  l1 ≡ₚ l2 → NoDup (key <$> l1) →
  last (sort_by_key key l1) = last (sort_by_key key l2).
Proof.
  intros Hp Hnd.
  destruct (last (sort_by_key key l1)) as [m1|] eqn:H1,
           (last (sort_by_key key l2)) as [m2|] eqn:H2.
  - f_equal.
    pose proof (PyFacts.sorted_last_max key _ _
                  (PyFacts.sort_by_key_sorted key l1) H1) as Hmax1.
    pose proof (PyFacts.sorted_last_max key _ _
                  (PyFacts.sort_by_key_sorted key l2) H2) as Hmax2.
    rewrite Forall_forall in Hmax1, Hmax2.
    assert (m1 ∈ l1) as Hin1.
    { rewrite <-(PyFacts.sort_by_key_perm key l1).
      by apply last_Some_elem_of. }
    assert (m2 ∈ l1) as Hin2.
    { rewrite Hp, <-(PyFacts.sort_by_key_perm key l2).
      by apply last_Some_elem_of. }
    apply (fmap_NoDup_inj_on key l1); [done..|].
    apply (anti_symm String.le).
    + apply Hmax2. by rewrite PyFacts.sort_by_key_perm, <-Hp.
    + apply Hmax1. by rewrite PyFacts.sort_by_key_perm.
  - apply last_None in H2.
    pose proof (Permutation_length (PyFacts.sort_by_key_perm key l2)) as Hl.
    rewrite H2 in Hl. destruct l2; [|done].
    apply Permutation_nil_r in Hp. subst l1. done.
  - apply last_None in H1.
    pose proof (Permutation_length (PyFacts.sort_by_key_perm key l1)) as Hl.
    rewrite H1 in Hl. destruct l1; [|done].
    apply Permutation_nil_l in Hp. subst l2. done.
  - done.
Qed.

End SortFacts.

Section Saving.
Context `{C : Collaborators roc_point}.

Local Abbreviation get_latest_parameter_file_name :=
  (get_latest_parameter_file_name (roc_point := roc_point)).

(** X6: when no two names of the artifact directory share a sort key, the
    snapshot selected does not depend on the order in which [os.listdir]
    reports the names. *)
Theorem resolve_independent_of_listing_order arguments s1 s2 l1 l2 :
  let path := model_directory arguments +:+ gen_param_str arguments +:+ "/" in
  fs_dirs s1 !! path = Some l1 → fs_dirs s2 !! path = Some l2 →
  l1 ≡ₚ l2 → NoDup (sort_key <$> l1) →
  result (get_latest_parameter_file_name arguments s1)
  = result (get_latest_parameter_file_name arguments s2).
Proof.
  intros path H1 H2 Hp Hnd.
  pose proof (get_latest_parameter_file_name_unfold (roc_point := roc_point)
                arguments s1) as Hun1.
  pose proof (get_latest_parameter_file_name_unfold (roc_point := roc_point)
                arguments s2) as Hun2.
  simpl in Hun1, Hun2. fold path in Hun1, Hun2.
  rewrite Hun1, Hun2, H1, H2, (SortFacts.sort_last_perm sort_key l1 l2 Hp Hnd).
  by destruct (last (Py.sort_by_key sort_key l2)).
Qed.

End Saving.

(** ** More on parsing *)

Section Parsing.
Context `{C : Collaborators roc_point}.

Local Abbreviation get_command_line_arguments :=
  (get_command_line_arguments (roc_point := roc_point)).

Ltac flag_by_induction opts :=
  induction opts as [|o opts IH]; intros a; simpl;
  [ rewrite elem_of_nil; tauto
  | rewrite IH, elem_of_cons; destruct o; simpl; intuition congruence ].

Lemma store_sets_generate opts : ∀ a,
  generate (foldl store a opts) = true ↔ generate a = true ∨ OptGenerate ∈ opts.
Proof. flag_by_induction opts. Qed.

Lemma store_sets_train opts : ∀ a,
  train (foldl store a opts) = true ↔ train a = true ∨ OptTrain ∈ opts.
Proof. flag_by_induction opts. Qed.

Lemma store_sets_visualize opts : ∀ a,
  visualize (foldl store a opts) = true
  ↔ visualize a = true ∨ OptVisualize ∈ opts.
Proof. flag_by_induction opts. Qed.

Lemma store_sets_test opts : ∀ a,
  test (foldl store a opts) = true ↔ test a = true ∨ OptTest ∈ opts.
Proof. flag_by_induction opts. Qed.

Lemma store_sets_time opts : ∀ a,
  time (foldl store a opts) = true ↔ time a = true ∨ OptTime ∈ opts.
Proof. flag_by_induction opts. Qed.

(** X9: a flag of the parsed namespace is set exactly when its option
    occurs on the command line, wherever and however often. *)
Theorem flags_reflect_options (opts : list cli_arg) :
  (generate (parse_args opts) = true ↔ OptGenerate ∈ opts)
  ∧ (train (parse_args opts) = true ↔ OptTrain ∈ opts)
  ∧ (visualize (parse_args opts) = true ↔ OptVisualize ∈ opts)
  ∧ (test (parse_args opts) = true ↔ OptTest ∈ opts)
  ∧ (time (parse_args opts) = true ↔ OptTime ∈ opts).
Proof.
  unfold parse_args.
  rewrite store_sets_generate, store_sets_train, store_sets_visualize,
    store_sets_test, store_sets_time.
  simpl. intuition congruence.
Qed.


Lemma store_keeps_model a opts :
  (∀ v, OptModel v ∉ opts) → model (foldl store a opts) = model a.
Proof.
  revert a. induction opts as [|o opts IH]; intros a Hno; [done|].
  simpl. rewrite IH by (intros v ?; apply (Hno v); by right).
  destruct o; try done. destruct (Hno v). by left.
Qed.

Lemma store_keeps_model_directory a opts :
  (∀ v, OptModelDirectory v ∉ opts) →
  model_directory (foldl store a opts) = model_directory a.
Proof.
  revert a. induction opts as [|o opts IH]; intros a Hno; [done|].
  simpl. rewrite IH by (intros v ?; apply (Hno v); by right).
  destruct o; try done. destruct (Hno v). by left.
Qed.

(** X11: the model path is set by -m only.  A command line that gives a
    model directory with -o and no -m sends snapshots, subsets and ROC
    reports to that directory, while the final model is still written to
    model.json in the sample_data/models directory of the script. *)
Theorem model_path_set_only_by_model_option pre v post :
  (∀ m, OptModel m ∉ pre ++ OptModelDirectory v :: post) →
  (∀ v', OptModelDirectory v' ∉ post) →
  let ns := parse_args (pre ++ OptModelDirectory v :: post) in
  model_directory ns = v
  ∧ model ns = script_dir +:+ "/sample_data/models/model.json".
Proof.
  intros Hm Hd ns. subst ns. unfold parse_args. split.
  - rewrite foldl_app. simpl. by rewrite store_keeps_model_directory.
  - by rewrite store_keeps_model.
Qed.

End Parsing.

(** ** More on the driver *)

Section Stages.
Context `{C : Collaborators roc_point}.

Ltac solve_prefix :=
  cbn [app]; repeat apply prefix_cons; first [apply prefix_nil | reflexivity].

Ltac event_cases Hin :=
  repeat (apply elem_of_cons in Hin as [Hin|Hin]; [try discriminate Hin|]);
  try (by apply elem_of_nil in Hin).

(** Sequencing two steps whose events are known. *)
Lemma bind_traces (m k : M (roc_point := roc_point) unit) s (L1 L2 : list event) :
  log (m s) `prefix_of` L1 → (result (m s) = inr tt → log (m s) = L1) →
  log (k (final (m s))) `prefix_of` L2 →
  (result (k (final (m s))) = inr tt → log (k (final (m s))) = L2) →
  let o := bind m (λ _, k) s in
  log o `prefix_of` L1 ++ L2 ∧ (result o = inr tt → log o = L1 ++ L2).
Proof.
  intros Hp1 He1 Hp2 He2. cbn zeta. unfold bind.
  destruct (result (m s)) as [e|[]]; cbn [log result final].
  - split; [by apply prefix_app_r|done].
  - rewrite He1 by done. split; [by apply prefix_app|].
    intros Hok. by rewrite He2.
Qed.

Lemma when_traces (b : bool) (m : M (roc_point := roc_point) unit) s
    (L : list event) :
  log (m s) `prefix_of` L → (result (m s) = inr tt → log (m s) = L) →
  log (when b m s) `prefix_of` (if b then L else [])
  ∧ (result (when b m s) = inr tt → log (when b m s) = if b then L else []).
Proof. intros Hp He. by destruct b. Qed.

Lemma generate_stage_trace arguments s :
  let L :=
    [ Print "Generating Responses";
      GenerateResponses arguments;
      Print ("Generated responses for "
             +:+ Py.str_int (num_students arguments) +:+ " students and "
             +:+ Py.str_int (num_problems arguments) +:+ " ") ] in
  log (generate_stage arguments s) `prefix_of` L
  ∧ (result (generate_stage arguments s) = inr tt →
       log (generate_stage arguments s) = L).
Proof.
  cbn zeta. unfold generate_stage, bind, call, emit. cbn [result log final].
  destruct (generate_responses_run arguments s) as [s1 [e|[]]];
    cbn [result log final]; (split; [solve_prefix|done]).
Qed.

Lemma visualize_stage_trace arguments params s :
  ∃ curve,
    let L :=
      [ LoadAndSimulateAssessment (model arguments)
          (model_directory arguments +:+ "rocs/" +:+ datetime arguments)
          (model_directory arguments +:+ "test.responses");
        Print ("visualizing for " +:+ model arguments);
        ShowRoc params curve;
        ShowExercises (model arguments) ] in
    log (visualize_stage arguments params s) `prefix_of` L
    ∧ (result (visualize_stage arguments params s) = inr tt →
         log (visualize_stage arguments params s) = L).
Proof.
  unfold visualize_stage, generate_roc_curve_from_model, bind, call, emit.
  rewrite PyFacts.string_app_assoc.
  destruct (load_and_simulate_assessment _ _ _ s) as [s1 [e|curve]];
    cbn [result log final].
  { exists []. split; [solve_prefix|done]. }
  exists curve.
  destruct (show_roc params curve s1) as [s2 [e|[]]]; cbn [result log final].
  { split; [solve_prefix|done]. }
  destruct (show_exercises (model arguments) s2) as [s3 r];
    cbn [result log final]. split; [solve_prefix|done].
Qed.

Lemma test_stage_trace arguments s :
  log (test_stage arguments s) = [AdaptivePretest (model arguments)].
Proof.
  unfold test_stage, call.
  by destruct (adaptive_pretest_main (model arguments) s).
Qed.

(** The events of a whole run, stage by stage. *)
Lemma run_trace arguments s :
  ∃ latest curve,
    let dir :=
      model_directory arguments +:+ gen_param_str arguments +:+ "/" in
    let G :=
      if generate arguments then
        [ Print "Generating Responses";
          GenerateResponses arguments;
          Print ("Generated responses for "
                 +:+ Py.str_int (num_students arguments) +:+ " students and "
                 +:+ Py.str_int (num_problems arguments) +:+ " ") ]
      else [] in
    let T :=
      if train arguments then
        [ MkdirP (PathList [model_directory arguments +:+ "rocs/"]);
          SepIntoTrainAndTest arguments;
          Print "Training MIRT models";
          MkdirP (PathStr dir);
          RunProgrammatically (mirt_train_params arguments);
          Listdir dir;
          Print ("Saving model to " +:+ model arguments);
          Copyfile (dir +:+ latest) (model arguments) ]
      else [] in
    let V :=
      if visualize arguments then
        [ LoadAndSimulateAssessment (model arguments)
            (model_directory arguments +:+ "rocs/" +:+ datetime arguments)
            (model_directory arguments +:+ "test.responses");
          Print ("visualizing for " +:+ model arguments);
          ShowRoc (gen_param_str arguments) curve;
          ShowExercises (model arguments) ]
      else [] in
    let Te :=
      if test arguments then [AdaptivePretest (model arguments)] else [] in
    let o := run_with_arguments arguments s in
    log o `prefix_of` G ++ T ++ V ++ Te
    ∧ (result o = inr tt → log o = G ++ T ++ V ++ Te).
Proof.
  set (m1 := when (generate arguments) (generate_stage arguments)).
  set (m2 := when (train arguments) (train_stage arguments)).
  set (m3 := when (visualize arguments)
               (visualize_stage arguments (gen_param_str arguments))).
  set (m4 := when (test arguments) (test_stage arguments)).
  set (s1 := final (m1 s)). set (s2 := final (m2 s1)).
  set (s3 := final (m3 s2)).
  destruct (train_stage_steps arguments s1) as (latest & Hp2 & He2).
  destruct (visualize_stage_trace arguments (gen_param_str arguments) s2)
    as (curve & Hp3 & He3).
  destruct (generate_stage_trace arguments s) as [Hp1 He1].
  exists latest, curve. cbn zeta.
  change (run_with_arguments arguments s)
    with (bind m1 (λ _, bind m2 (λ _, bind m3 (λ _, m4))) s).
  destruct (when_traces (generate arguments) _ s _ Hp1 He1) as [Hw1 Hw1'].
  destruct (when_traces (train arguments) _ s1 _ Hp2 (λ H, proj1 (He2 H)))
    as [Hw2 Hw2'].
  destruct (when_traces (visualize arguments) _ s2 _ Hp3 He3) as [Hw3 Hw3'].
  assert (log (m4 s3)
          = if test arguments then [AdaptivePretest (model arguments)] else [])
    as Hw4.
  { subst m4. unfold when. destruct (test arguments); [|done].
    apply test_stage_trace. }
  destruct (bind_traces m3 m4 s2 _
              (if test arguments then [AdaptivePretest (model arguments)]
               else []) Hw3 Hw3') as [H34 H34'].
  { fold s3. by rewrite Hw4. }
  { by intros _. }
  destruct (bind_traces m2 (bind m3 (λ _, m4)) s1 _ _ Hw2 Hw2' H34 H34')
    as [H234 H234'].
  exact (bind_traces m1 (bind m2 (λ _, bind m3 (λ _, m4))) s _ _
           Hw1 Hw1' H234 H234').
Qed.

(** X12: the events of a run are, in this order, those of the generate,
    train, visualize and test stages that were requested, each stage with
    its fixed steps and parameters; a run that raises stops somewhere in
    this sequence, and a run that returns has performed all of it. *)
Theorem run_with_arguments_trace arguments s :
  ∃ latest curve,
    let dir :=
      model_directory arguments +:+ gen_param_str arguments +:+ "/" in
    let G :=
      if generate arguments then
        [ Print "Generating Responses";
          GenerateResponses arguments;
          Print ("Generated responses for "
                 +:+ Py.str_int (num_students arguments) +:+ " students and "
                 +:+ Py.str_int (num_problems arguments) +:+ " ") ]
      else [] in
    let T :=
      if train arguments then
        [ MkdirP (PathList [model_directory arguments +:+ "rocs/"]);
          SepIntoTrainAndTest arguments;
          Print "Training MIRT models";
          MkdirP (PathStr dir);
          RunProgrammatically (mirt_train_params arguments);
          Listdir dir;
          Print ("Saving model to " +:+ model arguments);
          Copyfile (dir +:+ latest) (model arguments) ]
      else [] in
    let V :=
      if visualize arguments then
        [ LoadAndSimulateAssessment (model arguments)
            (model_directory arguments +:+ "rocs/" +:+ datetime arguments)
            (model_directory arguments +:+ "test.responses");
          Print ("visualizing for " +:+ model arguments);
          ShowRoc (gen_param_str arguments) curve;
          ShowExercises (model arguments) ]
      else [] in
    let Te :=
      if test arguments then [AdaptivePretest (model arguments)] else [] in
    let o := run_with_arguments arguments s in
    log o `prefix_of` G ++ T ++ V ++ Te
    ∧ (result o = inr tt → log o = G ++ T ++ V ++ Te).
Proof.
  destruct (run_trace arguments s) as (latest & curve & Hprefix & Hall).
  exists latest, curve. cbn zeta. split; [exact Hprefix|exact Hall].
Qed.

(** X13: only the train stage creates directories, splits the data, calls
    the trainer, lists a directory or copies a file.  A run without the
    train stage does none of these; in particular a visualize-only run
    does not create the rocs directory its ROC report is written to. *)
Theorem no_train_no_directory_or_copy arguments s :
  train arguments = false →
  let o := run_with_arguments arguments s in
  (∀ p, MkdirP p ∉ log o)
  ∧ (∀ a, SepIntoTrainAndTest a ∉ log o)
  ∧ (∀ ps, RunProgrammatically ps ∉ log o)
  ∧ (∀ p, Listdir p ∉ log o)
  ∧ (∀ src dst, Copyfile src dst ∉ log o).
Proof.
  intros Htrain o.
  destruct (run_trace arguments s) as (latest & curve & Hprefix & _).
  cbn zeta in Hprefix. rewrite Htrain in Hprefix. fold o in Hprefix.
  split_and!; intros; intros Hin;
    (eapply prefix_elem_of in Hin; [|exact Hprefix]);
    destruct (generate arguments), (visualize arguments), (test arguments);
    cbn [app] in Hin; event_cases Hin.
Qed.

(** X14: a failure of the generate or the train stage ends the run with
    that exception: the evaluator, the renderers and the adaptive test are
    not called. *)
Theorem data_stage_failure_is_fatal arguments s e :
  let before :=
    bind (when (generate arguments) (generate_stage arguments))
         (λ _, when (train arguments) (train_stage arguments)) s in
  result before = inl e →
  let o := run_with_arguments arguments s in
  result o = inl e ∧ log o = log before ∧ final o = final before
  ∧ (∀ m r t, LoadAndSimulateAssessment m r t ∉ log o)
  ∧ (∀ p c, ShowRoc p c ∉ log o)
  ∧ (∀ m, ShowExercises m ∉ log o)
  ∧ (∀ m, AdaptivePretest m ∉ log o).
Proof.
  intros before Hfail o.
  assert (o = Outcome (log before) (final before) (inl e)) as ->.
  { subst o. rewrite run_with_arguments_split. unfold bind at 1.
    fold before. by rewrite Hfail. }
  cbn [result log final].
  destruct (train_stage_steps arguments
              (final (when (generate arguments) (generate_stage arguments) s)))
    as (latest & Hp2 & He2).
  destruct (generate_stage_trace arguments s) as [Hp1 He1].
  destruct (when_traces (generate arguments) _ s _ Hp1 He1) as [Hw1 Hw1'].
  destruct (when_traces (train arguments) _ _ _ Hp2 (λ H, proj1 (He2 H)))
    as [Hw2 Hw2'].
  destruct (bind_traces _ _ s _ _ Hw1 Hw1' Hw2 Hw2') as [Hprefix _].
  fold before in Hprefix.
  split_and!; try done; intros; intros Hin;
    (eapply prefix_elem_of in Hin; [|exact Hprefix]);
    destruct (generate arguments), (train arguments);
    cbn [app] in Hin; event_cases Hin.
Qed.




End Stages.

(** ** Further runs on the concrete world *)

Module MoreRuns.

Lemma sort_key_extracts_suffix_witness :
  Py.has_char "_" "0001" = false ∧ sort_key ("snap" +:+ "_" +:+ "0001") = "0001".
Proof.
  assert (Py.has_char "_" "0001" = false) as Hk by reflexivity.
  split; [exact Hk|].
  destruct (sort_key_extracts_suffix "snap" "0001" "") as [Hsuffix _].
  exact (Hsuffix Hk).
Defined.

(** A namespace that differs from [Demo.train_only] only in fields the
    trainer is not told about. *)
Lemma mirt_train_params_inj_witness :
  let a2 := MkNamespace true true true false "elsewhere.responses" 3 7 9 true
              4 100 "m/" "elsewhere.json" Demo.now in
  mirt_train_params Demo.train_only = mirt_train_params a2
  ∧ datetime Demo.train_only = datetime a2.
Proof.
  intros a2.
  assert (mirt_train_params Demo.train_only = mirt_train_params a2) as Heq
    by (vm_compute; reflexivity).
  split; [exact Heq|].
  destruct (mirt_train_params_inj Demo.train_only a2 Heq)
    as (_ & _ & _ & _ & _ & Hdt).
  exact Hdt.
Defined.

Lemma module_init_sets_full_mask_witness :
  Init.module_init (inr (λ _ _, None)) (inr 4%positive)
  = ([Init.SetProcessAffinityMask 0 15], None)
  ∧ ∃ n, @inr Init.init_exn positive 4%positive = inr n
      ∧ ∀ i, Z.testbit 15 i = true ↔ (0 ≤ i < Z.pos n)%Z.
Proof.
  assert (Init.module_init (inr (λ _ _, None)) (inr 4%positive)
          = ([Init.SetProcessAffinityMask 0 15], None)) as Hinit
    by reflexivity.
  split; [exact Hinit|].
  destruct (module_init_sets_full_mask _ _ _ _ Hinit) as (_ & _ & _ & Hmask).
  destruct (Hmask 0%Z 15%Z) as [_ Hbits]; [by left|]. exact Hbits.
Defined.

Lemma resolve_independent_of_listing_order_witness :
  let l1 := ["a_10"; "a_1"; "a_2"] in
  let l2 := ["a_1"; "a_10"; "a_2"] in
  let path := model_directory Demo.train_only
              +:+ gen_param_str Demo.train_only +:+ "/" in
  fs_dirs (Demo.disk_with l1) !! path = Some l1
  ∧ fs_dirs (Demo.disk_with l2) !! path = Some l2
  ∧ l1 ≡ₚ l2 ∧ NoDup (sort_key <$> l1)
  ∧ result (get_latest_parameter_file_name (roc_point := Z * Z)
              Demo.train_only (Demo.disk_with l1))
    = result (get_latest_parameter_file_name (roc_point := Z * Z)
                Demo.train_only (Demo.disk_with l2)).
Proof.
  intros l1 l2 path.
  assert (fs_dirs (Demo.disk_with l1) !! path = Some l1) as H1
    by (vm_compute; reflexivity).
  assert (fs_dirs (Demo.disk_with l2) !! path = Some l2) as H2
    by (vm_compute; reflexivity).
  assert (l1 ≡ₚ l2) as Hp by apply Permutation_swap.
  assert (NoDup (sort_key <$> l1)) as Hnd.
  { apply (bool_decide_unpack _). vm_compute. exact I. }
  split_and!; [exact H1|exact H2|exact Hp|exact Hnd|].
  exact (resolve_independent_of_listing_order (roc_point := Z * Z)
           Demo.train_only _ _ l1 l2 H1 H2 Hp Hnd).
Defined.

Lemma flags_reflect_options_witness :
  train (parse_args (C := Demo.stubs) [OptAbilities 2; OptTrain; OptTime])
  = true.
Proof.
  destruct (flags_reflect_options (C := Demo.stubs)
              [OptAbilities 2; OptTrain; OptTime]) as (_ & [_ Htrain] & _).
  apply Htrain. right. by left.
Defined.


Lemma model_path_set_only_by_model_option_witness :
  let opts := [OptTrain] ++ OptModelDirectory "out/" :: [OptAbilities 2] in
  (∀ m, OptModel m ∉ opts)
  ∧ (∀ v', OptModelDirectory v' ∉ [OptAbilities 2])
  ∧ model_directory (parse_args (C := Demo.stubs) opts) = "out/"
  ∧ model (parse_args (C := Demo.stubs) opts)
    = "/opt/khan/sample_data/models/model.json".
Proof.
  intros opts.
  assert (∀ m, OptModel m ∉ opts) as Hm.
  { intros m Hin. unfold opts in Hin. cbn [app] in Hin.
    repeat (apply elem_of_cons in Hin as [Hin|Hin]; [discriminate Hin|]).
    by apply elem_of_nil in Hin. }
  assert (∀ v', OptModelDirectory v' ∉ [OptAbilities 2]) as Hd.
  { intros v' Hin.
    apply elem_of_cons in Hin as [Hin|Hin]; [discriminate Hin|].
    by apply elem_of_nil in Hin. }
  split; [exact Hm|]. split; [exact Hd|].
  exact (model_path_set_only_by_model_option (C := Demo.stubs)
           [OptTrain] "out/" [OptAbilities 2] Hm Hd).
Defined.

Lemma run_with_arguments_trace_witness :
  ∃ latest,
    log (run_with_arguments (C := Demo.stubs) Demo.train_only Demo.disk)
    = [ MkdirP (PathList ["m/rocs/"]);
        SepIntoTrainAndTest Demo.train_only;
        Print "Training MIRT models";
        MkdirP (PathStr Demo.artifact_dir);
        RunProgrammatically (mirt_train_params Demo.train_only);
        Listdir Demo.artifact_dir;
        Print "Saving model to m/model.json";
        Copyfile (Demo.artifact_dir +:+ latest) "m/model.json" ].
Proof.
  assert (result (run_with_arguments (C := Demo.stubs) Demo.train_only
                    Demo.disk) = inr tt) as Hok by (vm_compute; reflexivity).
  destruct (run_with_arguments_trace (C := Demo.stubs) Demo.train_only
              Demo.disk) as (latest & curve & _ & Hall).
  exists latest. exact (Hall Hok).
Defined.

Lemma no_train_no_directory_or_copy_witness :
  train Demo.visualize_and_test = false
  ∧ ∀ p, MkdirP p
         ∉ log (run_with_arguments (C := Demo.stubs) Demo.visualize_and_test
                  Demo.disk).
Proof.
  assert (train Demo.visualize_and_test = false) as Htrain by reflexivity.
  split; [exact Htrain|].
  destruct (no_train_no_directory_or_copy (C := Demo.stubs)
              Demo.visualize_and_test Demo.disk Htrain) as [Hmk _].
  exact Hmk.
Defined.

Lemma data_stage_failure_is_fatal_witness :
  let a := Demo.train_only in
  result (bind (when (generate a) (generate_stage (C := Demo.silent_trainer) a))
               (λ _, when (train a) (train_stage (C := Demo.silent_trainer) a))
               Demo.disk) = inl IndexError
  ∧ result (run_with_arguments (C := Demo.silent_trainer) a Demo.disk)
    = inl IndexError.
Proof.
  intros a.
  assert (result (bind (when (generate a)
                          (generate_stage (C := Demo.silent_trainer) a))
                    (λ _, when (train a)
                            (train_stage (C := Demo.silent_trainer) a))
                    Demo.disk) = inl IndexError) as Hfail
    by (vm_compute; reflexivity).
  split; [exact Hfail|].
  destruct (data_stage_failure_is_fatal (C := Demo.silent_trainer) a
              Demo.disk IndexError Hfail) as [Hres _].
  exact Hres.
Defined.




End MoreRuns.
